(** * streamable / kioss: plans, the iterator-producing visitor and the
      iteration driver

    A shallow embedding of
      - src/streamable/_stream.py  (the [Stream] builder and [Stream.iterate]),
      - src/kioss/_pipe.py         (the [Pipe] builder),
      - src/kioss/_visitor.py      ([IteratorGeneratingVisitor]).

    Python objects are an inductive type, exceptions are values, fallible
    code returns [result], and an iterator is the script of what its
    successive [next] calls do. *)

From Stdlib Require Import ZArith QArith List String Bool Lia Arith.
From Equations Require Import Equations.
Import ListNotations.

Local Open Scope string_scope.
Local Open Scope Z_scope.
#[local] Set Warnings "-register-all".

(* ===================================================================== *)
(** ** Python values                                                      *)
(* ===================================================================== *)

Module Py.

(** The exception classes the sources raise or name, plus one class that
    stands outside [Exception]. *)
Inductive ExcClass : Type :=
| BaseException
| KeyboardInterrupt
| Exception
| TypeError
| ValueError
| ZeroDivisionError
| AttributeError
| IndexError
| RuntimeError.

Definition ExcClass_eqb (a b : ExcClass) : bool :=
  match a, b with
  | BaseException, BaseException
  | KeyboardInterrupt, KeyboardInterrupt
  | Exception, Exception
  | TypeError, TypeError
  | ValueError, ValueError
  | ZeroDivisionError, ZeroDivisionError
  | AttributeError, AttributeError
  | IndexError, IndexError
  | RuntimeError, RuntimeError => true
  | _, _ => false
  end.

(** [issubclass c d]: the builtin hierarchy restricted to [ExcClass]. *)
Definition issubclass (c d : ExcClass) : bool :=
  match d with
  | BaseException => true
  | Exception =>
      match c with
      | BaseException | KeyboardInterrupt => false
      | _ => true
      end
  | _ => ExcClass_eqb c d
  end.

(** A float is a finite rational or one of the three special values;
    comparisons of a float with an int are exact in Python, so this is all
    the builders' guards can see of it. *)
Inductive PyFloat : Type :=
| Finite (q : Q)
| PosInf
| NegInf
| NaN.

(** An f-string is kept as its pieces: literal text, [{x}] and
    [{type(x)}]. *)
Inductive Piece (O : Type) : Type :=
| Lit (s : string)
| Fmt (x : O)
| FmtType (x : O).
Arguments Lit {O} s.
Arguments Fmt {O} x.
Arguments FmtType {O} x.

Inductive result (E A : Type) : Type :=
| Ok (a : A)
| Err (e : E).
Arguments Ok {E A} a.
Arguments Err {E A} e.

(** Python objects.  An iterator object carries the script of its [next]
    calls: each entry is the element returned or the exception raised by
    one call, and the end of the script is [StopIteration]. *)
Inductive PyObj : Type :=
| ONone
| OBool (b : bool)
| OInt (z : Z)
| OFloat (f : PyFloat)
| OStr (s : string)
| OList (xs : list PyObj)
| OIterator (script : list (result PyExc PyObj))
| OFunction (name : string) (call : unit -> result PyExc PyObj)
with PyExc : Type :=
| MkExc (cls : ExcClass) (msg : list (Piece PyObj)) (cause : option PyExc).

Definition exc_class (e : PyExc) : ExcClass :=
  match e with MkExc c _ _ => c end.
Definition exc_msg (e : PyExc) : list (Piece PyObj) :=
  match e with MkExc _ m _ => m end.
Definition exc_cause (e : PyExc) : option PyExc :=
  match e with MkExc _ _ c => c end.

Definition res (A : Type) : Type := result PyExc A.

Definition bind {A B : Type} (m : res A) (k : A -> res B) : res B :=
  match m with
  | Ok a => k a
  | Err e => Err e
  end.

Definition raise {A : Type} (c : ExcClass) (m : list (Piece PyObj)) : res A :=
  Err (MkExc c m None).

Notation "x <- m ;; k" := (bind m (fun x => k))
  (at level 61, m at next level, right associativity).
Notation "m ;;; k" := (bind m (fun _ => k))
  (at level 61, right associativity).

(** [isinstance(e, cls)] on exceptions, and on a tuple of classes. *)
Definition isinstance_exc (e : PyExc) (c : ExcClass) : bool :=
  issubclass (exc_class e) c.

Definition isinstance_any (e : PyExc) (classes : list ExcClass) : bool :=
  existsb (isinstance_exc e) classes.

(** [isinstance(x, int)]: [bool] is a subclass of [int]. *)
Definition isinstance_int (x : PyObj) : bool :=
  match x with
  | OInt _ | OBool _ => true
  | _ => false
  end.

(** [callable(x)]. *)
Definition callable (x : PyObj) : bool :=
  match x with
  | OFunction _ _ => true
  | _ => false
  end.

(** [f()]: a call of an object with no argument. *)
Definition call0 (f : PyObj) : result PyExc PyObj :=
  match f with
  | OFunction _ body => body tt
  | _ => Err (MkExc TypeError [FmtType f; Lit " object is not callable"] None)
  end.

(** The numeric value of an int or a bool. *)
Definition Z_of_bool (b : bool) : Z := if b then 1 else 0.

(** [x < k] and [x <= k] for an int literal [k]: defined on the numbers,
    a [TypeError] on the rest.  Every comparison with NaN is false. *)
Definition unorderable {A : Type} (op : string) (x : PyObj) : res A :=
  raise TypeError
    [Lit "'"; Lit op; Lit "' not supported between instances of ";
     FmtType x; Lit " and 'int'"].

Definition Qlt_bool (a b : Q) : bool := negb (Qle_bool b a).

Definition lt_int (x : PyObj) (k : Z) : res bool :=
  match x with
  | OBool b => Ok (Z_of_bool b <? k)
  | OInt z => Ok (z <? k)
  | OFloat (Finite q) => Ok (Qlt_bool q (inject_Z k))
  | OFloat NegInf => Ok true
  | OFloat PosInf | OFloat NaN => Ok false
  | _ => unorderable "<" x
  end.

Definition le_int (x : PyObj) (k : Z) : res bool :=
  match x with
  | OBool b => Ok (Z_of_bool b <=? k)
  | OInt z => Ok (z <=? k)
  | OFloat (Finite q) => Ok (Qle_bool q (inject_Z k))
  | OFloat NegInf => Ok true
  | OFloat PosInf | OFloat NaN => Ok false
  | _ => unorderable "<=" x
  end.

(** [x == k] for an int literal [k]; never raises. *)
Definition eq_int (x : PyObj) (k : Z) : bool :=
  match x with
  | OBool b => Z_of_bool b =? k
  | OInt z => z =? k
  | OFloat (Finite q) => Qeq_bool q (inject_Z k)
  | _ => false
  end.

(** The mathematical reading of "x >= k under numeric comparison" and
    "x < k": [x] is a number and its value compares so. *)
Inductive num_ge (k : Z) : PyObj -> Prop :=
| ge_bool b : k <= Z_of_bool b -> num_ge k (OBool b)
| ge_int z : k <= z -> num_ge k (OInt z)
| ge_float q : (inject_Z k <= q)%Q -> num_ge k (OFloat (Finite q))
| ge_inf : num_ge k (OFloat PosInf).

Inductive num_lt (k : Z) : PyObj -> Prop :=
| lt_bool b : Z_of_bool b < k -> num_lt k (OBool b)
| lt_int_ z : z < k -> num_lt k (OInt z)
| lt_float q : (q < inject_Z k)%Q -> num_lt k (OFloat (Finite q))
| lt_neginf : num_lt k (OFloat NegInf).

Inductive num_le (k : Z) : PyObj -> Prop :=
| le_bool b : Z_of_bool b <= k -> num_le k (OBool b)
| le_int_ z : z <= k -> num_le k (OInt z)
| le_float q : (q <= inject_Z k)%Q -> num_le k (OFloat (Finite q))
| le_neginf : num_le k (OFloat NegInf).

End Py.

(* ===================================================================== *)
(** ** src/kioss/_pipe.py: the plan and its builder                       *)
(* ===================================================================== *)

Module Kioss.
Import Py.

Definition Func : Type := PyObj -> res PyObj.
Definition Predicate : Type := PyObj -> res bool.
Definition When : Type := PyExc -> res bool.

Inductive Pipe : Type :=
| SourcePipe (source : PyObj)
| FilterPipe (upstream : Pipe) (predicate : Predicate)
| MapPipe (upstream : Pipe) (func : Func) (n_threads : PyObj)
| DoPipe (upstream : Pipe) (func : Func) (n_threads : PyObj)
| LogPipe (upstream : Pipe) (what : string) (colored : bool)
| FlattenPipe (upstream : Pipe) (n_threads : PyObj)
| BatchPipe (upstream : Pipe) (size : PyObj) (period : PyObj)
| CatchPipe (upstream : Pipe) (classes : list ExcClass)
            (when : option When)
| ChainPipe (upstream : Pipe) (others : list Pipe)
| SlowPipe (upstream : Pipe) (freq : PyObj).

(** [SourcePipe.__init__] *)
Definition SourcePipe__init__ (source : PyObj) : res Pipe :=
  if negb (callable source) then
    raise TypeError
      [Lit "source must be a callable returning an iterator, but the provided source is not a callable: got source '";
       Fmt source; Lit "' of type "; FmtType source; Lit "."]
  else Ok (SourcePipe source).

(** [Pipe.sanitize_n_threads] *)
Definition sanitize_n_threads (n_threads : PyObj) : res unit :=
  if negb (isinstance_int n_threads) then
    raise TypeError
      [Lit "n_threads should be an int but got '"; Fmt n_threads;
       Lit "' of type "; FmtType n_threads; Lit "."]
  else
    c <- lt_int n_threads 1 ;;
    if c then
      raise ValueError
        [Lit "n_threads should be greater or equal to 1, but got ";
         Fmt n_threads; Lit "."]
    else Ok tt.

Definition map (self : Pipe) (func : Func) (n_threads : PyObj) : res Pipe :=
  sanitize_n_threads n_threads ;;;
  Ok (MapPipe self func n_threads).

Definition do (self : Pipe) (func : Func) (n_threads : PyObj) : res Pipe :=
  sanitize_n_threads n_threads ;;;
  Ok (DoPipe self func n_threads).

Definition flatten (self : Pipe) (n_threads : PyObj) : res Pipe :=
  sanitize_n_threads n_threads ;;;
  Ok (FlattenPipe self n_threads).

Definition chain (self : Pipe) (others : list Pipe) : Pipe :=
  ChainPipe self others.

Definition filter (self : Pipe) (predicate : Predicate) : Pipe :=
  FilterPipe self predicate.

Definition batch (self : Pipe) (size period : PyObj) : Pipe :=
  BatchPipe self size period.

Definition slow (self : Pipe) (freq : PyObj) : Pipe :=
  SlowPipe self freq.

Definition catch (self : Pipe) (classes : list ExcClass)
  (when : option When) : Pipe :=
  CatchPipe self classes when.

Definition log (self : Pipe) (what : string) (colored : bool) : Pipe :=
  LogPipe self what colored.

End Kioss.

(* ===================================================================== *)
(** ** Iterators and the producers that wrap them                         *)
(* ===================================================================== *)

Module Exec.
Import Py.

(** An iterator is the script of its remaining [next] calls. *)
Definition Iterator : Type := list (res PyObj).

(** What one [next] call does. *)
Inductive Pull : Type :=
| Item (x : PyObj)
| Error (e : PyExc)
| StopIteration.

Definition pull_of (o : res PyObj) : Pull :=
  match o with
  | Ok x => Item x
  | Err e => Error e
  end.

Definition next (it : Iterator) : Pull * Iterator :=
  match it with
  | [] => (StopIteration, [])
  | o :: it' => (pull_of o, it')
  end.

Definition inspect {A : Type} (x : A) : { y : A | x = y } :=
  exist _ x eq_refl.

(** A producer is a state with a [next] method; pulling it until
    [StopIteration] gives its script.  [size] bounds the pulls left. *)
Section Drain.
Context {S : Type} (step : S -> Pull * S) (size : S -> nat).
Hypothesis step_decr : forall s p s',
  step s = (p, s') -> p <> StopIteration -> (size s' < size s)%nat.

Equations? drain (s : S) : Iterator by wf (size s) lt :=
  drain s with inspect (step s) := {
    | exist _ (StopIteration, _) _ := [];
    | exist _ (Item x, s') _ := Ok x :: drain s';
    | exist _ (Error e, s') _ := Err e :: drain s' }.
Proof. all: eapply step_decr; eauto; discriminate. Qed.
End Drain.

(** [for elem in producer: if len(output_samples) < collect_limit:
    output_samples.append(elem)].  The loop ends normally on
    [StopIteration]; an exception raised by a [next] leaves the loop and is
    returned with the state reached. *)
Section ForLoop.
Context {S : Type} (step : S -> Pull * S) (size : S -> nat).
Hypothesis step_decr : forall s p s',
  step s = (p, s') -> p <> StopIteration -> (size s' < size s)%nat.
Variable collect_limit : Z.

Definition collect (output_samples : list PyObj) (elem : PyObj)
  : list PyObj :=
  if Z.of_nat (List.length output_samples) <? collect_limit
  then output_samples ++ [elem]
  else output_samples.

Equations? for_each (s : S) (output_samples : list PyObj)
  : option PyExc * S * list PyObj by wf (size s) lt :=
  for_each s out with inspect (step s) := {
    | exist _ (StopIteration, s') _ := (None, s', out);
    | exist _ (Error e, s') _ := (Some e, s', out);
    | exist _ (Item x, s') _ := for_each s' (collect out x) }.
Proof. eapply step_decr; eauto; discriminate. Qed.
End ForLoop.

(** *** Python builtins *)

(** [map(func, it)]: one upstream pull, then one call of [func], per
    [next]; an exception of either is raised by that [next]. *)
Definition builtin_map_next (func : PyObj -> res PyObj) (it : Iterator)
  : Pull * Iterator :=
  match next it with
  | (Item x, it') => (pull_of (func x), it')
  | other => other
  end.

Definition builtin_map (func : PyObj -> res PyObj) (it : Iterator)
  : Iterator :=
  List.map (fun o => bind o func) it.

(** [filter(predicate, it)]: pulls upstream until the predicate holds. *)
Fixpoint builtin_filter (predicate : PyObj -> res bool) (it : Iterator)
  : Iterator :=
  match it with
  | [] => []
  | Err e :: it' => Err e :: builtin_filter predicate it'
  | Ok x :: it' =>
      match predicate x with
      | Ok true => Ok x :: builtin_filter predicate it'
      | Ok false => builtin_filter predicate it'
      | Err e => Err e :: builtin_filter predicate it'
      end
  end.

(** [itertools.chain] over iterators [its]: the state is the list of iterators not yet
    found exhausted, together with the number of those already dropped.
    A [next] pulls the first iterator; on its [StopIteration] the iterator
    is dropped and the following one is pulled.  The position of the
    iterator that answered is returned with the pull. *)
Fixpoint chain_next (k : nat) (its : list Iterator)
  : Pull * nat * (nat * list Iterator) :=
  match its with
  | [] => (StopIteration, k, (k, []))
  | it :: rest =>
      match next it with
      | (StopIteration, _) => chain_next (S k) rest
      | (p, it') => (p, k, (k, it' :: rest))
      end
  end.

Definition chain_size (st : nat * list Iterator) : nat :=
  List.length (List.concat (snd st)).

Definition chain_step (st : nat * list Iterator)
  : Pull * (nat * list Iterator) :=
  let '(p, _, st') := chain_next (fst st) (snd st) in (p, st').

Lemma chain_next_decr : forall its k p i st',
  chain_next k its = (p, i, st') -> p <> StopIteration ->
  (chain_size st' < chain_size (k, its))%nat.
Proof.
  induction its as [|it rest IH]; intros k p i st' H Hp; simpl in H.
  - inversion H; subst; congruence.
  - destruct it as [|o it']; simpl in H.
    + eapply IH in H; auto.
    + destruct o; inversion H; subst; unfold chain_size; simpl;
        rewrite ?List.length_app; lia.
Qed.

Lemma chain_step_decr : forall s p s',
  chain_step s = (p, s') -> p <> StopIteration ->
  (chain_size s' < chain_size s)%nat.
Proof.
  intros [k its] p s' H Hp. unfold chain_step in H; simpl in H.
  destruct (chain_next k its) as [[p0 i] st0] eqn:E.
  inversion H; subst. eapply chain_next_decr; eauto.
Qed.

Definition itertools_chain (its : list Iterator) : Iterator :=
  drain chain_step chain_size chain_step_decr (0%nat, its).

(** The same run with every pull labelled by the position of the iterator
    that answered it. *)
Equations? chain_trace (k : nat) (its : list Iterator)
  : list (nat * res PyObj) by wf (chain_size (k, its)) lt :=
  chain_trace k its with inspect (chain_next k its) := {
    | exist _ (StopIteration, _, _) _ := [];
    | exist _ (Item x, i, (k', its')) _ := (i, Ok x) :: chain_trace k' its';
    | exist _ (Error e, i, (k', its')) _ := (i, Err e) :: chain_trace k' its' }.
Proof.
  all: eapply chain_next_decr; eauto; discriminate.
Qed.

(** *** The catching producer *)

(** Modelled from the spec: [_exec.CatchingIteratorWrapper] is not in the
    sources.  Spec 4.9: on each pull, pull upstream; if upstream raises an
    error whose kind is in (or is a subkind of) the configured set and
    [when] (if present) returns true, swallow the error and pull again; if
    the predicate returns false or the kind does not match, the error
    propagates; end-of-stream is never caught; [when] itself raising
    propagates unchanged.

    [when] is a Python callable and may be a closure that writes to the
    variables of the frame that made it, so it is run in state-passing
    style over a state [S]. *)
Section Catching.
Context {S : Type} (classes : list ExcClass)
        (when : option (PyExc -> S -> res bool * S)).

(** Modelled from the spec: one pull of the catching producer (spec 4.9)
    on the upstream [it], with [s] the state [when] works on. *)
Fixpoint catching_next (it : Iterator) (s : S) : Pull * (Iterator * S) :=
  match it with
  | [] => (StopIteration, ([], s))
  | Ok x :: it' => (Item x, (it', s))
  | Err e :: it' =>
      if isinstance_any e classes then
        match when with
        | None => catching_next it' s
        | Some w =>
            match w e s with
            | (Ok true, s') => catching_next it' s'
            | (Ok false, s') => (Error e, (it', s'))
            | (Err e', s') => (Error e', (it', s'))
            end
        end
      else (Error e, (it', s))
  end.

Definition catching_step (st : Iterator * S) : Pull * (Iterator * S) :=
  catching_next (fst st) (snd st).

Definition catching_size (st : Iterator * S) : nat := List.length (fst st).

Lemma catching_next_decr : forall it s p st',
  catching_next it s = (p, st') -> p <> StopIteration ->
  (catching_size st' < List.length it)%nat.
Proof.
  induction it as [|o it IH]; intros s p st' H Hp; simpl in H.
  - inversion H; subst; congruence.
  - destruct o as [x|e].
    + inversion H; subst; unfold catching_size; simpl; lia.
    + destruct (isinstance_any e classes).
      * destruct when as [w|].
        -- destruct (w e s) as [[[|]|e'] s'].
           ++ apply IH in H; auto; simpl; lia.
           ++ inversion H; subst; unfold catching_size; simpl; lia.
           ++ inversion H; subst; unfold catching_size; simpl; lia.
        -- apply IH in H; auto; simpl; lia.
      * inversion H; subst; unfold catching_size; simpl; lia.
Qed.

Lemma catching_step_decr : forall st p st',
  catching_step st = (p, st') -> p <> StopIteration ->
  (catching_size st' < catching_size st)%nat.
Proof.
  intros [it s] p st' H Hp. eapply catching_next_decr; eauto.
Qed.
End Catching.

(** A [when] that touches no state. *)
Definition pure_when (w : PyExc -> res bool) : PyExc -> unit -> res bool * unit :=
  fun e s => (w e, s).

(** Modelled from the spec: the catching producer of spec 4.9 for a
    [when] without state, as the script of its pulls. *)
Definition CatchingIteratorWrapper (it : Iterator) (classes : list ExcClass)
  (when : option (PyExc -> res bool)) : Iterator :=
  drain (catching_step classes (option_map pure_when when))
        catching_size
        (catching_step_decr classes (option_map pure_when when))
        (it, tt).

(** *** The concurrent mapping producer *)

(** Modelled from the spec: [_concurrent_exec.ThreadedMappingIteratorWrapper]
    is not in the sources.  Spec 4.3: a bounded FIFO of futures of size
    [concurrency]; the producer pulls the next upstream element, submits
    [func(elem)] to the pool, appends the resulting future to the tail of
    the FIFO, then (when the FIFO is full or upstream is exhausted) blocks
    on the head future and yields its value; an upstream [next] failure is
    recorded as a completed-with-error future at the tail.

    A future is represented by the result its task completes with. *)
Section Threaded.
Context (func : PyObj -> res PyObj) (capacity : nat).

(** Modelled from the spec: pull upstream and submit, appending each
    future at the tail, until the FIFO is full or upstream is exhausted
    (spec 4.3). *)
Fixpoint submit_ahead (futures : list (res PyObj)) (it : Iterator)
  : list (res PyObj) * Iterator :=
  match it with
  | [] => (futures, [])
  | o :: it' =>
      if (List.length futures <? capacity)%nat
      then submit_ahead (futures ++ [bind o func]) it'
      else (futures, it)
  end.

(** Modelled from the spec: one pull of the concurrent mapping producer:
    submit ahead, then wait for the head future and yield its value or
    raise its error (spec 4.3). *)
Definition threaded_next (st : list (res PyObj) * Iterator)
  : Pull * (list (res PyObj) * Iterator) :=
  let '(futures, it') := submit_ahead (fst st) (snd st) in
  match futures with
  | [] => (StopIteration, ([], it'))
  | r :: futures' => (pull_of r, (futures', it'))
  end.

Definition threaded_size (st : list (res PyObj) * Iterator) : nat :=
  (List.length (fst st) + List.length (snd st))%nat.

Lemma submit_ahead_size : forall it futures,
  threaded_size (submit_ahead futures it) = threaded_size (futures, it).
Proof.
  induction it as [|o it IH]; intros futures; simpl; auto.
  destruct (List.length futures <? capacity)%nat; auto.
  rewrite IH. unfold threaded_size; simpl. rewrite List.length_app; simpl; lia.
Qed.

Lemma threaded_next_decr : forall st p st',
  threaded_next st = (p, st') -> p <> StopIteration ->
  (threaded_size st' < threaded_size st)%nat.
Proof.
  intros [futures it] p st' H Hp. unfold threaded_next in H; simpl in H.
  pose proof (submit_ahead_size it futures) as Hs.
  destruct (submit_ahead futures it) as [fs it'].
  destruct fs as [|r fs'].
  - inversion H; subst; congruence.
  - inversion H; subst. rewrite <- Hs. unfold threaded_size; simpl; lia.
Qed.
End Threaded.

(** Modelled from the spec: the bound of the FIFO of spec 4.3 is the
    concurrency; the spec gives it for a natural number only. *)
Definition fifo_capacity (n_workers : PyObj) : nat :=
  match n_workers with
  | OInt z => Z.to_nat z
  | OBool b => Z.to_nat (Z_of_bool b)
  | _ => 0%nat
  end.

(** Modelled from the spec: the concurrent mapping producer of spec 4.3,
    as the script of its pulls, starting with no future in flight. *)
Definition ThreadedMappingIteratorWrapper (it : Iterator)
  (func : PyObj -> res PyObj) (n_workers : PyObj) : Iterator :=
  drain (threaded_next func (fifo_capacity n_workers))
        threaded_size
        (threaded_next_decr func (fifo_capacity n_workers))
        ([], it).

(** *** The producers whose code is not in the sources *)

(** The remaining adapters of [_exec] and [_concurrent_exec] are taken as
    given functions of exactly the arguments the visitor passes them. *)
Class ExecLib : Type := {
  FlatteningIteratorWrapper : Iterator -> res Iterator;
  ThreadedFlatteningIteratorWrapper : Iterator -> PyObj -> res Iterator;
  BatchingIteratorWrapper : Iterator -> PyObj -> PyObj -> res Iterator;
  SlowingIteratorWrapper : Iterator -> PyObj -> res Iterator;
  LoggingIteratorWrapper : Iterator -> string -> res Iterator
}.

End Exec.

(* ===================================================================== *)
(** ** src/kioss/_visitor.py: IteratorGeneratingVisitor                   *)
(* ===================================================================== *)

Module IteratorGeneratingVisitor.
Import Py Exec Kioss.

(** Modelled from the spec: [_util.duck_check_type_is_iterator] is not in
    the sources.  Per the comment at its call site and spec 4.1 it checks
    that the object is an iterator (implements [__iter__] and [__next__])
    and raises a [TypeError] otherwise.  Its own message is not known and
    is left empty. *)
Definition duck_check_type_is_iterator (obj : PyObj) : res unit :=
  match obj with
  | OIterator _ => Ok tt
  | _ => raise TypeError []
  end.

(** The script of an iterator object. *)
Definition script_of (obj : PyObj) : Iterator :=
  match obj with
  | OIterator script => script
  | _ => []
  end.

Definition visitSourcePipe (source : PyObj) : res Iterator :=
  iterator <- call0 source ;;
  match duck_check_type_is_iterator iterator with
  | Err e =>
      if isinstance_exc e TypeError then
        Err (MkExc TypeError
               [Lit "source must be a callable returning an iterator (implements __iter__ and __next__ methods), but the object resulting from a call to source() was not an iterator: got '";
                Fmt iterator; Lit "' of type "; FmtType iterator; Lit "."]
               (Some e))
      else Err e
  | Ok _ => Ok (script_of iterator)
  end.

(** [list(map(iter, pipes))] for an [iter] that may raise. *)
Definition iter_all {A : Type} (iter : A -> res Iterator)
  : list A -> res (list Iterator) :=
  fix go (pipes : list A) : res (list Iterator) :=
    match pipes with
    | [] => Ok []
    | p :: rest =>
        it <- iter p ;;
        its <- go rest ;;
        Ok (it :: its)
    end.

(** Modelled from the spec: what Do applies to an element (spec 4.2):
    [func], whose result is discarded for the element itself; if [func]
    fails the exception propagates and the element is not yielded. *)
Definition do_func (func : Func) : Func :=
  fun elem => func elem ;;; Ok elem.

Section Visit.
Context {lib : ExecLib}.

(** The recursive calls [pipe.upstream._accept(self)] and [iter(pipe)]
    go through [accept]. *)
Section Methods.
Variable accept : Pipe -> res Iterator.

Definition visitMapPipe (upstream : Pipe) (func : Func)
  (n_threads : PyObj) : res Iterator :=
  if eq_int n_threads 1 then
    up <- accept upstream ;;
    Ok (builtin_map func up)
  else
    up <- accept upstream ;;
    Ok (ThreadedMappingIteratorWrapper up func n_threads).

Definition visitFlattenPipe (upstream : Pipe) (n_threads : PyObj)
  : res Iterator :=
  if eq_int n_threads 1 then
    up <- accept upstream ;;
    FlatteningIteratorWrapper up
  else
    up <- accept upstream ;;
    ThreadedFlatteningIteratorWrapper up n_threads.

Definition visitChainPipe (upstream : Pipe) (others : list Pipe)
  : res Iterator :=
  up <- accept upstream ;;
  its <- iter_all accept others ;;
  Ok (itertools_chain (up :: its)).

Definition visitFilterPipe (upstream : Pipe) (predicate : Predicate)
  : res Iterator :=
  up <- accept upstream ;;
  Ok (builtin_filter predicate up).

Definition visitBatchPipe (upstream : Pipe) (size period : PyObj)
  : res Iterator :=
  up <- accept upstream ;;
  BatchingIteratorWrapper up size period.

Definition visitSlowPipe (upstream : Pipe) (freq : PyObj)
  : res Iterator :=
  up <- accept upstream ;;
  SlowingIteratorWrapper up freq.

Definition visitCatchPipe (upstream : Pipe) (classes : list ExcClass)
  (when : option When) : res Iterator :=
  up <- accept upstream ;;
  Ok (CatchingIteratorWrapper up classes when).

Definition visitLogPipe (upstream : Pipe) (what : string) : res Iterator :=
  up <- accept upstream ;;
  LoggingIteratorWrapper up what.
End Methods.

(** Modelled from the spec: the dispatch of a node to the method that
    visits it.  The methods above are those of src/kioss/_visitor.py; the
    nodes they are written for (module [_plan]) and the visitor base whose
    methods the [_accept] methods of src/kioss/_pipe.py call are not in the
    sources.  Spec 2 and 9: a double-dispatch visitor maps each operator
    kind to its dedicated producer adapter.  So a node of [_pipe.py] is
    handed to the method of this visitor for its kind, with the fields that
    method reads: [visitLogPipe] reads [upstream] and [what] of a Log node
    and nothing else.  The visitor has no method for Do; spec 4.2 and 4.3
    give Do the adapter of Map, applied to [do_func]. *)
Fixpoint accept (pipe : Pipe) : res Iterator :=
  match pipe with
  | SourcePipe source => visitSourcePipe source
  | MapPipe upstream func n_threads =>
      visitMapPipe accept upstream func n_threads
  | FlattenPipe upstream n_threads =>
      visitFlattenPipe accept upstream n_threads
  | ChainPipe upstream others => visitChainPipe accept upstream others
  | FilterPipe upstream predicate =>
      visitFilterPipe accept upstream predicate
  | BatchPipe upstream size period =>
      visitBatchPipe accept upstream size period
  | SlowPipe upstream freq => visitSlowPipe accept upstream freq
  | CatchPipe upstream classes when =>
      visitCatchPipe accept upstream classes when
  | LogPipe upstream what _ => visitLogPipe accept upstream what
  | DoPipe upstream func n_threads =>
      visitMapPipe accept upstream (do_func func) n_threads
  end.
End Visit.

End IteratorGeneratingVisitor.

(* ===================================================================== *)
(** ** src/streamable/_stream.py: the plan and its builder                *)
(* ===================================================================== *)

Module Streamable.
Import Py Exec.

(** User callables held by a plan: they return or raise. *)
Definition Func : Type := PyObj -> res PyObj.
Definition Predicate : Type := PyObj -> res bool.
Definition When : Type := PyExc -> res bool.

(** [class Stream] and its subclasses.  The base class is the source
    node ([upstream = None], [source]). *)
Inductive Stream : Type :=
| SourceStream (source : PyObj)
| FilterStream (upstream : Stream) (predicate : Predicate)
| MapStream (upstream : Stream) (func : Func) (concurrency : PyObj)
| DoStream (upstream : Stream) (func : Func) (concurrency : PyObj)
| ObserveStream (upstream : Stream) (what : string) (colored : bool)
| FlattenStream (upstream : Stream) (concurrency : PyObj)
| BatchStream (upstream : Stream) (size : PyObj) (seconds : PyObj)
| CatchStream (upstream : Stream) (classes : list ExcClass)
              (when : option When)
| ChainStream (upstream : Stream) (others : list Stream)
| SlowStream (upstream : Stream) (frequency : PyObj).

Definition _RUN_MAX_NUM_ERROR_SAMPLES : Z := 8.

(** [Stream.__init__] *)
Definition __init__ (source : PyObj) : res Stream :=
  if negb (callable source) then
    raise TypeError [Lit "source must be a callable but got a "; FmtType source]
  else Ok (SourceStream source).

(** [Stream._validate_concurrency] *)
Definition _validate_concurrency (concurrency : PyObj) : res unit :=
  c <- lt_int concurrency 1 ;;
  if c then
    raise ValueError
      [Lit "`concurrency` should be greater or equal to 1, but got ";
       Fmt concurrency; Lit "."]
  else Ok tt.

Definition map (self : Stream) (func : Func) (concurrency : PyObj)
  : res Stream :=
  _validate_concurrency concurrency ;;;
  Ok (MapStream self func concurrency).

Definition do (self : Stream) (func : Func) (concurrency : PyObj)
  : res Stream :=
  _validate_concurrency concurrency ;;;
  Ok (DoStream self func concurrency).

Definition flatten (self : Stream) (concurrency : PyObj) : res Stream :=
  _validate_concurrency concurrency ;;;
  Ok (FlattenStream self concurrency).

Definition chain (self : Stream) (others : list Stream) : Stream :=
  ChainStream self others.

Definition filter (self : Stream) (predicate : Predicate) : Stream :=
  FilterStream self predicate.

Definition batch (self : Stream) (size seconds : PyObj) : res Stream :=
  c1 <- lt_int size 1 ;;
  if c1 then
    raise ValueError
      [Lit "batch's size should be >= 1 but got "; Fmt size; Lit "."]
  else
    c2 <- le_int seconds 0 ;;
    if c2 then
      raise ValueError
        [Lit "batch's seconds should be > 0 but got "; Fmt seconds; Lit "."]
    else Ok (BatchStream self size seconds).

Definition slow (self : Stream) (frequency : PyObj) : res Stream :=
  c <- le_int frequency 0 ;;
  if c then
    raise ValueError
      [Lit "frequency is the maximum number of elements to yield per second, it must be > 0  but got ";
       Fmt frequency; Lit "."]
  else Ok (SlowStream self frequency).

Definition catch (self : Stream) (classes : list ExcClass)
  (when : option When) : Stream :=
  CatchStream self classes when.

Definition observe (self : Stream) (what : string) (colored : bool)
  : Stream :=
  ObserveStream self what colored.

(** [isinstance(self, ObserveStream)] *)
Definition is_ObserveStream (self : Stream) : bool :=
  match self with
  | ObserveStream _ _ _ => true
  | _ => false
  end.

(** *** Compiling a plan into a producer *)

(** Modelled from the spec: [streamable._visit._iter.IteratorProducingVisitor]
    is not in the sources.  Spec 2: each operator kind maps to a dedicated
    producer adapter.  Spec 4.1: the source producer calls the stored
    factory to obtain an iterator, verifies at first call that the returned
    object is pull-iterable (a descriptive type error otherwise, whose
    message includes the offending value and its type), and exposes its
    [next] directly.  Spec 4.2: Do pulls one upstream element, applies
    [func], discards the result and yields the original element; if [func]
    fails the exception propagates and the element is not yielded. *)
Definition source_producer (source : PyObj) : res Iterator :=
  iterator <- call0 source ;;
  match iterator with
  | OIterator script => Ok script
  | _ =>
      Ok [Err (MkExc TypeError
                 [Lit "source did not return an iterator: got '";
                  Fmt iterator; Lit "' of type "; FmtType iterator; Lit "."]
                 None)]
  end.

(** Modelled from the spec: what Do applies to an element (spec 4.2):
    [func], whose result is discarded for the element itself. *)
Definition do_func (func : Func) : Func :=
  fun elem => func elem ;;; Ok elem.

(** Modelled from the spec: the observing producer of spec 4.10 yields
    the upstream elements and errors as they come; its log entries go to
    the log sink, an external collaborator. *)
Definition ObservingIteratorWrapper (it : Iterator) (what : string)
  (colored : bool) : Iterator := it.

(** Modelled from the spec: Map is the single-threaded producer of spec
    4.2 at concurrency 1 and the concurrent one of spec 4.3 otherwise. *)
Definition mapping_producer (it : Iterator) (func : Func)
  (concurrency : PyObj) : Iterator :=
  if eq_int concurrency 1 then builtin_map func it
  else ThreadedMappingIteratorWrapper it func concurrency.

Section Visit.
Context {lib : ExecLib}.

(** Modelled from the spec: see [source_producer]; the adapters for
    Flatten, Batch and Slow are those of [lib]. *)
Fixpoint __iter__ (self : Stream) : res Iterator :=
  match self with
  | SourceStream source => source_producer source
  | FilterStream upstream predicate =>
      up <- __iter__ upstream ;;
      Ok (builtin_filter predicate up)
  | MapStream upstream func concurrency =>
      up <- __iter__ upstream ;;
      Ok (mapping_producer up func concurrency)
  | DoStream upstream func concurrency =>
      up <- __iter__ upstream ;;
      Ok (mapping_producer up (do_func func) concurrency)
  | ObserveStream upstream what colored =>
      up <- __iter__ upstream ;;
      Ok (ObservingIteratorWrapper up what colored)
  | FlattenStream upstream concurrency =>
      up <- __iter__ upstream ;;
      if eq_int concurrency 1 then FlatteningIteratorWrapper up
      else ThreadedFlatteningIteratorWrapper up concurrency
  | BatchStream upstream size seconds =>
      up <- __iter__ upstream ;;
      BatchingIteratorWrapper up size seconds
  | CatchStream upstream classes when =>
      up <- __iter__ upstream ;;
      Ok (CatchingIteratorWrapper up classes when)
  | ChainStream upstream others =>
      up <- __iter__ upstream ;;
      its <- (fix go (l : list Stream) : res (list Iterator) :=
                match l with
                | [] => Ok []
                | s :: rest =>
                    it <- __iter__ s ;;
                    its <- go rest ;;
                    Ok (it :: its)
                end) others ;;
      Ok (itertools_chain (up :: its))
  | SlowStream upstream frequency =>
      up <- __iter__ upstream ;;
      SlowingIteratorWrapper up frequency
  end.

(** *** [Stream.iterate] *)

(** The variables of [iterate] that the closure [register_error_sample]
    writes to. *)
Record Locals : Type := {
  errors_count : Z;
  error_samples : list PyExc
}.

Definition register_error_sample (max_num_error_samples : Z)
  (error : PyExc) (l : Locals) : res bool * Locals :=
  let l1 := {| errors_count := errors_count l + 1;
               error_samples := error_samples l |} in
  let l2 :=
    if Z.of_nat (List.length (error_samples l1)) <? max_num_error_samples
    then {| errors_count := errors_count l1;
            error_samples := error_samples l1 ++ [error] |}
    else l1 in
  (Ok true, l2).

(** What a call of [iterate] leaves behind: what it returns or raises,
    the final values of its two counters, the samples written to the
    error log (if that line ran), and the part of the upstream script
    that was never pulled. *)
Record Run : Type := {
  outcome : res (list PyObj);
  final_errors_count : Z;
  final_error_samples : list PyExc;
  error_log : option (Z * list PyExc);
  unpulled : Iterator
}.

Definition not_run (e : PyExc) : Run :=
  {| outcome := Err e; final_errors_count := 0;
     final_error_samples := []; error_log := None; unpulled := [] |}.

(** The statements after the loop. *)
Definition after_loop (max_num_error_samples raise_if_more_errors_than : Z)
  (l : Locals) (output_samples : list PyObj) (rest : Iterator) : Run :=
  if 0 <? errors_count l then
    {| outcome :=
         if raise_if_more_errors_than <? errors_count l then
           match error_samples l with
           | first :: _ => Err first
           | [] => raise IndexError [Lit "list index out of range"]
           end
         else Ok output_samples;
       final_errors_count := errors_count l;
       final_error_samples := error_samples l;
       error_log := Some (max_num_error_samples, error_samples l);
       unpulled := rest |}
  else
    {| outcome := Ok output_samples;
       final_errors_count := errors_count l;
       final_error_samples := error_samples l;
       error_log := None;
       unpulled := rest |}.

(** An exception that leaves the loop leaves [iterate]. *)
Definition aborted (e : PyExc) (l : Locals) (rest : Iterator) : Run :=
  {| outcome := Err e;
     final_errors_count := errors_count l;
     final_error_samples := error_samples l;
     error_log := None;
     unpulled := rest |}.

Lemma next_decr : forall (s : Iterator) p s',
  next s = (p, s') -> p <> StopIteration ->
  (List.length s' < List.length s)%nat.
Proof.
  intros [|o s] p s' H Hp; simpl in H; inversion H; subst; simpl;
    [congruence | lia].
Qed.

(** [stream.catch(Exception, when=register_error_sample)] holds a
    closure over the locals, so its producer is run here over
    [Locals] rather than built as a plan node: it is the catching
    producer of the visitor's Catch case around [iter(stream)]. *)
Definition iterate (self : Stream) (collect_limit : Z)
  (raise_if_more_errors_than : Z) (fail_fast : bool) : Run :=
  if collect_limit <? 0 then
    not_run (MkExc ValueError
               [Lit "`collect_limit` must be >= 0  but got ";
                Fmt (OInt collect_limit); Lit "."] None)
  else if raise_if_more_errors_than <? 0 then
    not_run (MkExc ValueError
               [Lit "`raise_if_more_errors_than` must be >= 0  but got ";
                Fmt (OInt raise_if_more_errors_than); Lit "."] None)
  else
    let max_num_error_samples := _RUN_MAX_NUM_ERROR_SAMPLES in
    let stream :=
      if negb (is_ObserveStream self)
      then observe self "output elements" false
      else self in
    let locals := {| errors_count := 0; error_samples := [] |} in
    if negb fail_fast then
      let when := register_error_sample max_num_error_samples in
      match __iter__ stream with
      | Err e => not_run e
      | Ok up =>
          match for_each (catching_step [Exception] (Some when))
                  catching_size
                  (catching_step_decr [Exception] (Some when))
                  collect_limit (up, locals) [] with
          | (Some e, (rest, l), _) => aborted e l rest
          | (None, (rest, l), output_samples) =>
              after_loop max_num_error_samples raise_if_more_errors_than
                l output_samples rest
          end
      end
    else
      match __iter__ stream with
      | Err e => not_run e
      | Ok up =>
          match for_each next (@List.length _) next_decr
                  collect_limit up [] with
          | (Some e, rest, _) => aborted e locals rest
          | (None, rest, output_samples) =>
              after_loop max_num_error_samples raise_if_more_errors_than
                locals output_samples rest
          end
      end.
End Visit.

End Streamable.

(* ===================================================================== *)
(** ** src/kioss/_pipe.py: iteration, collect and superintend             *)
(* ===================================================================== *)

Module PipeMethods.
Import Py Exec Kioss IteratorGeneratingVisitor.

(** The classes of src/kioss/_visitor.py, one of which the slot
    [Pipe.ITERATOR_PRODUCING_VISITOR_CLASS] holds when it is set. *)
Inductive VisitorClass : Type :=
| AVisitor
| IteratorGeneratingVisitorClass.

(** [inspect.isabstract(cls)]: [AVisitor] has abstract methods. *)
Definition isabstract (cls : VisitorClass) : bool :=
  match cls with
  | AVisitor => true
  | IteratorGeneratingVisitorClass => false
  end.

(** The explaining visitor is not in the sources: a class for the slot
    [Pipe.EXPLAINING_VISITOR_CLASS] is given by whether it is abstract and
    by what visiting a plan with [colored] returns or raises. *)
Record ExplainerClass : Type := {
  explainer_isabstract : bool;
  explainer_accept : bool -> Pipe -> res string
}.

(** [isinstance(self, LogPipe)] *)
Definition is_LogPipe (self : Pipe) : bool :=
  match self with
  | LogPipe _ _ _ => true
  | _ => false
  end.

(** [Pipe.__add__] *)
Definition __add__ (self other : Pipe) : Pipe := chain self [other].

(** [[elem for i, elem in enumerate(producer) if (n_samples is None or
    i < n_samples)]]: the comprehension of [Pipe.collect] over a producer.
    It ends normally on [StopIteration]; an exception raised by a [next]
    leaves it and is returned with the state reached. *)
Section Comprehension.
Context {S : Type} (step : S -> Pull * S) (size : S -> nat).
Hypothesis step_decr : forall s p s',
  step s = (p, s') -> p <> StopIteration -> (size s' < size s)%nat.
Variable n_samples : option Z.

Definition keep (i : nat) (out : list PyObj) (elem : PyObj) : list PyObj :=
  match n_samples with
  | None => out ++ [elem]
  | Some n => if Z.of_nat i <? n then out ++ [elem] else out
  end.

Equations? comprehension (s : S) (i : nat) (out : list PyObj)
  : option PyExc * S * list PyObj by wf (size s) lt :=
  comprehension s i out with inspect (step s) := {
    | exist _ (StopIteration, s') _ := (None, s', out);
    | exist _ (Error e, s') _ := (Some e, s', out);
    | exist _ (Item x, s') _ :=
        comprehension s' (Datatypes.S i) (keep i out x) }.
Proof. eapply step_decr; eauto; discriminate. Qed.
End Comprehension.

Section Methods.
Context {lib : ExecLib}.
Variable SOURCE_PIPE_CLASS : option (PyObj -> res Pipe).
Variable ITERATOR_PRODUCING_VISITOR_CLASS : option VisitorClass.
Variable EXPLAINING_VISITOR_CLASS : option ExplainerClass.

(** The two guards of [Pipe.__iter__]. *)
Definition visitor_guard : res unit :=
  match ITERATOR_PRODUCING_VISITOR_CLASS with
  | None => raise ValueError [Lit "_pipe.ITERATOR_PRODUCING_VISITOR_CLASS is None"]
  | Some cls =>
      if isabstract cls then
        raise ValueError [Lit "_pipe.ITERATOR_PRODUCING_VISITOR_CLASS is abstract"]
      else Ok tt
  end.

(** [Pipe.__iter__]: past the guards the slot holds the one class that
    is not abstract, and the plan accepts an instance of it. *)
Definition __iter__ (self : Pipe) : res Iterator :=
  visitor_guard ;;;
  accept self.

(** [Pipe.from_source] *)
Definition from_source (source : PyObj) : res Pipe :=
  match SOURCE_PIPE_CLASS with
  | None => raise ValueError [Lit "Pipe.SOURCE_PIPE_CLASS is not set"]
  | Some cls => cls source
  end.

(** [Pipe.explain] *)
Definition explain (self : Pipe) (colored : bool) : res string :=
  match EXPLAINING_VISITOR_CLASS with
  | None => raise ValueError [Lit "_pipe.EXPLAINING_VISITOR_CLASS is None"]
  | Some cls =>
      if explainer_isabstract cls then
        raise ValueError [Lit "_pipe.EXPLAINING_VISITOR_CLASS is abstract"]
      else explainer_accept cls colored self
  end.

(** [Pipe.collect]; [n_samples] is [None] or an int. *)
Definition collect (self : Pipe) (n_samples : option Z) : res (list PyObj) :=
  it <- __iter__ self ;;
  match comprehension next (@List.length _) Streamable.next_decr
          n_samples it 0%nat [] with
  | (Some e, _, _) => Err e
  | (None, _, out) => Ok out
  end.

(** [Pipe.superintend].  The closure [register_error_sample] has the
    body of the one in [Stream.iterate], with [n_error_samples] for the
    bound, and writes to the same two locals; as there, the producer of
    [plan.catch(Exception, when=register_error_sample)] is the catching
    producer of [visitCatchPipe] around the producer of [plan], run over
    those locals.  The plan handed to [explain] carries, for [when], the
    value the closure returns. *)
Definition superintend (self : Pipe)
  (n_samples n_error_samples raise_if_more_errors_than : Z)
  : Streamable.Run :=
  let plan :=
    if negb (is_LogPipe self) then log self "output elements" false
    else self in
  let locals := {| Streamable.errors_count := 0;
                   Streamable.error_samples := [] |} in
  let when := Streamable.register_error_sample n_error_samples in
  let safe_plan := catch plan [Exception] (Some (fun _ => Ok true)) in
  match explain safe_plan false with
  | Err e => Streamable.not_run e
  | Ok _ =>
      match (visitor_guard ;;; accept plan) with
      | Err e => Streamable.not_run e
      | Ok up =>
          match comprehension (catching_step [Exception] (Some when))
                  catching_size
                  (catching_step_decr [Exception] (Some when))
                  (Some n_samples) (up, locals) 0%nat [] with
          | (Some e, (rest, l), _) => Streamable.aborted e l rest
          | (None, (rest, l), samples) =>
              Streamable.after_loop n_error_samples
                raise_if_more_errors_than l samples rest
          end
      end
  end.
End Methods.

End PipeMethods.

(* ===================================================================== *)
(** ** src/streamable/_stream.py: the remaining methods                   *)
(* ===================================================================== *)

Module StreamMethods.
Import Py Exec Streamable.

(** [Stream.__add__] *)
Definition __add__ (self other : Stream) : Stream := chain self [other].

End StreamMethods.

(* ===================================================================== *)
(** ** The observing producer and its log                                 *)
(* ===================================================================== *)

Module Observing.
Import Py Exec.

(** Modelled from the spec: the observing producer and the log entries it
    writes are not in the sources ([_exec], [_util] and the visitor that
    compiles an Observe node are absent).  Spec 4.10: the log entry
    includes [what] (a plural descriptor) and, if [colored], ANSI color
    codes.  An entry is kept as its pieces: the yielded count, the text of
    [what], and the colour codes set around them. *)
Inductive Token : Type :=
| AnsiCode
| Count (n : nat)
| What (s : string).

Definition LogEntry : Type := list Token.

(** Modelled from the spec: the entry written at a yielded count (spec
    4.10). *)
Definition log_entry (what : string) (colored : bool) (count : nat)
  : LogEntry :=
  if colored then [AnsiCode; Count count; What what; AnsiCode]
  else [Count count; What what].

(** Modelled from the spec: "the yielded count is 1 or a power of two
    (1, 2, 4, 8, 16, ...)" (spec 4.10). *)
Definition is_power_of_two (n : nat) : bool :=
  ((0 <? n) && (2 ^ Nat.log2 n =? n))%nat.

(** Modelled from the spec: one pull of the observing producer (spec
    4.10).  It counts the elements yielded, emits a log entry when the
    yielded count is 1 or a power of two and also at end-of-stream with
    the final count, and emits no log on errors.  The state is the count
    and the upstream; the entries written by the pull are returned with
    it. *)
Definition observing_next (what : string) (colored : bool)
  (st : nat * Iterator) : Pull * (nat * Iterator) * list LogEntry :=
  match next (snd st) with
  | (Item x, it') =>
      let count := S (fst st) in
      (Item x, (count, it'),
       if is_power_of_two count then [log_entry what colored count] else [])
  | (Error e, it') => (Error e, (fst st, it'), [])
  | (StopIteration, it') =>
      (StopIteration, (fst st, it'), [log_entry what colored (fst st)])
  end.

Definition observing_size (st : nat * Iterator) : nat := List.length (snd st).

Lemma observing_next_decr (what : string) (colored : bool) :
  forall st p st' log,
  observing_next what colored st = (p, st', log) -> p <> StopIteration ->
  (observing_size st' < observing_size st)%nat.
Proof.
  intros [count [|[x|e] it]] p st' log H Hp; unfold observing_next in H;
    simpl in H; inversion H; subst; unfold observing_size; simpl;
    try congruence; lia.
Qed.

(** Modelled from the spec: a whole iteration over the observing
    producer, pulled until [StopIteration]: what it yields and raises, and
    the log it writes. *)
Equations? observing_run (what : string) (colored : bool)
  (st : nat * Iterator) : Iterator * list LogEntry
  by wf (observing_size st) lt :=
  observing_run what colored st
    with inspect (observing_next what colored st) := {
    | exist _ (StopIteration, _, log) _ := ([], log);
    | exist _ (Item x, st', log) _ :=
        (Ok x :: fst (observing_run what colored st'),
         (log ++ snd (observing_run what colored st'))%list);
    | exist _ (Error e, st', log) _ :=
        (Err e :: fst (observing_run what colored st'),
         (log ++ snd (observing_run what colored st'))%list) }.
Proof.
  all: eapply observing_next_decr; eauto; discriminate.
Qed.

End Observing.

(* ===================================================================== *)
(** ** Vocabulary of the statements                                       *)
(* ===================================================================== *)

Import Py Exec IteratorGeneratingVisitor.
Local Open Scope list_scope.

(** What "the builder raises an exception of class [cls]" means. *)
Definition raises {A : Type} (r : res A) (cls : ExcClass) : Prop :=
  exists e, r = Err e /\ exc_class e = cls.

(** [type(x) is int]: the reading of "int" under which the boolean
    [True] is a non-integer. *)
Definition type_is_int (x : PyObj) : bool :=
  match x with
  | OInt _ => true
  | _ => false
  end.

Definition is_iterator (obj : PyObj) : bool :=
  match obj with
  | OIterator _ => true
  | _ => false
  end.

(** The script of [its] with every entry labelled by the position of its
    iterator, counted from [k]. *)
Fixpoint labelled (k : nat) (its : list Iterator) : list (nat * res PyObj) :=
  match its with
  | [] => []
  | it :: rest => List.map (pair k) it ++ labelled (S k) rest
  end.

(** The elements a script yields and the errors it raises, in order. *)
Fixpoint elements (it : Iterator) : list PyObj :=
  match it with
  | [] => []
  | Ok x :: it' => x :: elements it'
  | Err _ :: it' => elements it'
  end.

Fixpoint errors (it : Iterator) : list PyExc :=
  match it with
  | [] => []
  | Ok _ :: it' => errors it'
  | Err e :: it' => e :: errors it'
  end.

Definition is_Exception (e : PyExc) : Prop := isinstance_exc e Exception = true.

Definition register_all (errs : list PyExc) (l : Streamable.Locals)
  : Streamable.Locals :=
  fold_left
    (fun l e =>
       snd (Streamable.register_error_sample
              Streamable._RUN_MAX_NUM_ERROR_SAMPLES e l))
    errs l.

(** The stream [iterate] runs: [self], observed if it is not already. *)
Definition observed (self : Streamable.Stream) : Streamable.Stream :=
  if negb (Streamable.is_ObserveStream self)
  then Streamable.observe self "output elements" false
  else self.

Definition no_locals : Streamable.Locals :=
  {| Streamable.errors_count := 0; Streamable.error_samples := [] |}.

(** The loop of [iterate] over the catching producer, by recursion on
    the upstream script; the loops are shown to compute it. *)
Fixpoint deferred_run (limit : Z) (up : Iterator) (l : Streamable.Locals)
  (out : list PyObj)
  : option PyExc * (Iterator * Streamable.Locals) * list PyObj :=
  match up with
  | [] => (None, ([], l), out)
  | Ok x :: up' => deferred_run limit up' l (collect limit out x)
  | Err e :: up' =>
      if isinstance_any e [Exception]
      then deferred_run limit up'
             (snd (Streamable.register_error_sample
                     Streamable._RUN_MAX_NUM_ERROR_SAMPLES e l)) out
      else (Some e, (up', l), out)
  end.

(** The loop of [iterate] over a bare iterator. *)
Fixpoint fail_fast_run (limit : Z) (up : Iterator) (out : list PyObj)
  : option PyExc * Iterator * list PyObj :=
  match up with
  | [] => (None, [], out)
  | Ok x :: up' => fail_fast_run limit up' (collect limit out x)
  | Err e :: up' => (Some e, up', out)
  end.

(** A positive count comes with a sample. *)
Definition sampled (l : Streamable.Locals) : Prop :=
  0 <= Streamable.errors_count l
  /\ (0 < Streamable.errors_count l -> Streamable.error_samples l <> []).

(** "x > k under numeric comparison". *)
Inductive num_gt (k : Z) : PyObj -> Prop :=
| gt_bool b : k < Z_of_bool b -> num_gt k (OBool b)
| gt_int z : k < z -> num_gt k (OInt z)
| gt_float q : (inject_Z k < q)%Q -> num_gt k (OFloat (Finite q))
| gt_inf : num_gt k (OFloat PosInf).

Definition is_nan (x : PyObj) : Prop := x = OFloat NaN.

(** [lambda x: q(x) and p(x)] for two predicates. *)
Definition both (q p : PyObj -> res bool) : PyObj -> res bool :=
  fun x => b <- q x ;; if b then p x else Ok false.

(** [lambda x: g(f(x))]. *)
Definition then_apply (f g : PyObj -> res PyObj) : PyObj -> res PyObj :=
  fun x => y <- f x ;; g y.

(** The comprehension of [Pipe.collect] over a bare iterator, by
    recursion on its script. *)
Fixpoint collect_run (n_samples : option Z) (up : Iterator) (i : nat)
  (out : list PyObj) : option PyExc * Iterator * list PyObj :=
  match up with
  | [] => (None, [], out)
  | Ok x :: up' =>
      collect_run n_samples up' (S i) (PipeMethods.keep n_samples i out x)
  | Err e :: up' => (Some e, up', out)
  end.

(** The comprehension of [Pipe.collect] over the catching producer of
    [Pipe.superintend], by recursion on the upstream script. *)
Fixpoint superintend_run (n_error_samples : Z) (n_samples : option Z)
  (up : Iterator) (l : Streamable.Locals) (i : nat) (out : list PyObj)
  : option PyExc * (Iterator * Streamable.Locals) * list PyObj :=
  match up with
  | [] => (None, ([], l), out)
  | Ok x :: up' =>
      superintend_run n_error_samples n_samples up' l (S i)
        (PipeMethods.keep n_samples i out x)
  | Err e :: up' =>
      if isinstance_any e [Exception]
      then superintend_run n_error_samples n_samples up'
             (snd (Streamable.register_error_sample n_error_samples e l))
             i out
      else (Some e, (up', l), out)
  end.

(** The locals after the errors [errs] have been registered with the
    bound [m]. *)
Definition register_all_with (m : Z) (errs : list PyExc)
  (l : Streamable.Locals) : Streamable.Locals :=
  fold_left (fun l e => snd (Streamable.register_error_sample m e l)) errs l.

(** The plan [Pipe.superintend] runs: [self], logged if it is not
    already. *)
Definition logged (self : Kioss.Pipe) : Kioss.Pipe :=
  if negb (PipeMethods.is_LogPipe self)
  then Kioss.log self "output elements" false
  else self.

(** What the comprehension keeps of the elements [xs] met from index
    [i] on. *)
Definition kept (n_samples : option Z) (i : nat) (xs : list PyObj)
  : list PyObj :=
  match n_samples with
  | None => xs
  | Some n => firstn (Z.to_nat n - i) xs
  end.

(** The plan handed to [explain] by [superintend]. *)
Definition safe_plan (self : Kioss.Pipe) : Kioss.Pipe :=
  Kioss.catch (logged self) [Exception] (Some (fun _ => Ok true)).

(** Whether a log entry carries a colour code. *)
Definition has_ansi (entry : Observing.LogEntry) : bool :=
  existsb (fun t => match t with Observing.AnsiCode => true | _ => false end)
    entry.

(** The log of the observing producer by recursion on the upstream
    script, from the yielded count [count]. *)
Fixpoint observing_log (what : string) (colored : bool) (count : nat)
  (it : Iterator) : list Observing.LogEntry :=
  match it with
  | [] => [Observing.log_entry what colored count]
  | Ok _ :: it' =>
      (if Observing.is_power_of_two (S count)
       then [Observing.log_entry what colored (S count)] else [])
      ++ observing_log what colored (S count) it'
  | Err _ :: it' => observing_log what colored count it'
  end.

(* ===================================================================== *)
(** ** Concrete plans                                                     *)
(* ===================================================================== *)

(** Adapters that hand their upstream on unchanged; an instance to run
    the visitors on concrete plans. *)
Definition passthrough_lib : ExecLib := {|
  FlatteningIteratorWrapper := fun it => Ok it;
  ThreadedFlatteningIteratorWrapper := fun it _ => Ok it;
  BatchingIteratorWrapper := fun it _ _ => Ok it;
  SlowingIteratorWrapper := fun it _ => Ok it;
  LoggingIteratorWrapper := fun it _ => Ok it
|}.

Definition a_source : PyObj :=
  OFunction "source" (fun _ => Ok (OIterator [Ok (OInt 1); Ok (OInt 2)])).
Definition a_stream : Streamable.Stream := Streamable.SourceStream a_source.
Definition a_pipe : Kioss.Pipe := Kioss.SourcePipe a_source.
Definition id_func : PyObj -> res PyObj := fun x => Ok x.

(** A factory that returns a list: an iterable, not an iterator. *)
Definition list_source : PyObj :=
  OFunction "source" (fun _ => Ok (OList [OInt 1; OInt 2])).

Definition b_source : PyObj :=
  OFunction "source"
    (fun _ => Ok (OIterator [Ok (OInt 3);
                             Err (MkExc ZeroDivisionError [] None);
                             Ok (OInt 4)])).
Definition c_source : PyObj :=
  OFunction "source" (fun _ => Ok (OIterator [Ok (OInt 5)])).

Definition square : PyObj -> res PyObj :=
  fun x =>
    match x with
    | OInt z => Ok (OInt (z * z))
    | _ => raise TypeError []
    end.

Definition zero_division : PyExc := MkExc ZeroDivisionError [Lit "division by zero"] None.
Definition bad_value : PyExc := MkExc ValueError [Lit "bad value"] None.

Definition faulty_script : Iterator :=
  [Ok (OInt 1); Err zero_division; Ok (OInt 2); Err bad_value; Ok (OInt 3)].

Definition faulty_stream : Streamable.Stream :=
  Streamable.SourceStream (OFunction "source" (fun _ => Ok (OIterator faulty_script))).

(** An explaining visitor class that prints nothing. *)
Definition silent_explainer : PipeMethods.ExplainerClass :=
  {| PipeMethods.explainer_isabstract := false;
     PipeMethods.explainer_accept := fun _ _ => Ok EmptyString |}.

Definition faulty_pipe : Kioss.Pipe :=
  Kioss.SourcePipe
    (OFunction "source" (fun _ => Ok (OIterator faulty_script))).

Definition keyboard_interrupt : PyExc := MkExc KeyboardInterrupt [] None.

Definition interrupted_script : Iterator :=
  [Ok (OInt 1); Err zero_division; Err keyboard_interrupt; Ok (OInt 2)].

Definition interrupted_stream : Streamable.Stream :=
  Streamable.SourceStream
    (OFunction "source" (fun _ => Ok (OIterator interrupted_script))).

Definition is_positive : PyObj -> res bool :=
  fun x =>
    match x with
    | OInt z => Ok (0 <? z)
    | _ => raise TypeError []
    end.

Definition is_small : PyObj -> res bool :=
  fun x =>
    match x with
    | OInt z => Ok (z <? 3)
    | _ => raise TypeError []
    end.

Definition raising_source : PyObj :=
  OFunction "source" (fun _ => Err bad_value).

(* ===================================================================== *)
(** ** Properties                                                         *)
(* ===================================================================== *)


(** *** Unfolding the loops *)

Lemma builtin_map_next_script (func : PyObj -> res PyObj) (it : Iterator) :
  next (builtin_map func it)
  = (fst (builtin_map_next func it),
     builtin_map func (snd (builtin_map_next func it))).
Proof.
  destruct it as [|[x|e] it]; reflexivity.
Qed.

Lemma drain_unfold {S : Type} step size decr (s : S) :
  drain step size decr s =
  match step s with
  | (StopIteration, _) => []
  | (Item x, s') => Ok x :: drain step size decr s'
  | (Error e, s') => Err e :: drain step size decr s'
  end.
Proof.
  rewrite drain_equation_1. unfold inspect.
  assert (H : forall r (e : step s = r),
    drain_unfold_clause_1 step size decr s (exist _ r e) =
    match r with
    | (StopIteration, _) => []
    | (Item x, s') => Ok x :: drain step size decr s'
    | (Error e, s') => Err e :: drain step size decr s'
    end) by (intros [[x|e0|] s'] e; reflexivity).
  apply H.
Qed.

Lemma for_each_unfold {S : Type} step size decr limit (s : S) out :
  for_each step size decr limit s out =
  match step s with
  | (StopIteration, s') => (None, s', out)
  | (Error e, s') => (Some e, s', out)
  | (Item x, s') => for_each step size decr limit s' (collect limit out x)
  end.
Proof.
  rewrite for_each_equation_1. unfold inspect.
  assert (H : forall r (e : step s = r),
    for_each_unfold_clause_1 step size decr limit s (exist _ r e) out =
    match r with
    | (StopIteration, s') => (None, s', out)
    | (Error e, s') => (Some e, s', out)
    | (Item x, s') => for_each step size decr limit s' (collect limit out x)
    end) by (intros [[x|e0|] s'] e; reflexivity).
  apply H.
Qed.

Lemma chain_trace_unfold k its :
  chain_trace k its =
  match chain_next k its with
  | (StopIteration, _, _) => []
  | (Item x, i, (k', its')) => (i, Ok x) :: chain_trace k' its'
  | (Error e, i, (k', its')) => (i, Err e) :: chain_trace k' its'
  end.
Proof.
  rewrite chain_trace_equation_1. unfold inspect.
  assert (H : forall r (e : chain_next k its = r),
    chain_trace_unfold_clause_1 k its (exist _ r e) =
    match r with
    | (StopIteration, _, _) => []
    | (Item x, i, (k', its')) => (i, Ok x) :: chain_trace k' its'
    | (Error e, i, (k', its')) => (i, Err e) :: chain_trace k' its'
    end) by (intros [[[x|e0|] i] [k' its']] e; reflexivity).
  apply H.
Qed.

(** *** The guards of the builders *)

Lemma Qlt_bool_iff (a b : Q) : Qlt_bool a b = true <-> (a < b)%Q.
Proof.
  unfold Qlt_bool. rewrite negb_true_iff. split; intro H.
  - apply Qnot_le_lt. intro Hle. apply Qle_bool_iff in Hle. congruence.
  - destruct (Qle_bool b a) eqn:E; auto.
    apply Qle_bool_iff in E. exfalso. eapply Qlt_not_le; eauto.
Qed.

Lemma lt_int_true (x : PyObj) (k : Z) : lt_int x k = Ok true <-> num_lt k x.
Proof.
  split.
  - destruct x as [ | b | z | [q| | | ] | s | xs | sc | nm c ]; simpl; intro H;
      try discriminate; inversion H as [H1]; constructor.
    + apply Z.ltb_lt; assumption.
    + apply Z.ltb_lt; assumption.
    + apply Qlt_bool_iff; assumption.
  - intros [b H | z H | q H | ]; simpl; f_equal.
    + apply Z.ltb_lt; assumption.
    + apply Z.ltb_lt; assumption.
    + apply Qlt_bool_iff; assumption.
Qed.

Lemma le_int_true (x : PyObj) (k : Z) : le_int x k = Ok true <-> num_le k x.
Proof.
  split.
  - destruct x as [ | b | z | [q| | | ] | s | xs | sc | nm c ]; simpl; intro H;
      try discriminate; inversion H as [H1]; constructor.
    + apply Z.leb_le; assumption.
    + apply Z.leb_le; assumption.
    + apply Qle_bool_iff; assumption.
  - intros [b H | z H | q H | ]; simpl; f_equal.
    + apply Z.leb_le; assumption.
    + apply Z.leb_le; assumption.
    + apply Qle_bool_iff; assumption.
Qed.

Lemma lt_int_false_of_ge (x : PyObj) (k : Z) :
  num_ge k x -> lt_int x k = Ok false.
Proof.
  intros [b H | z H | q H | ]; simpl; f_equal.
  - apply Z.ltb_ge; assumption.
  - apply Z.ltb_ge; assumption.
  - destruct (Qlt_bool q (inject_Z k)) eqn:E; auto.
    apply Qlt_bool_iff in E. exfalso. eapply Qlt_not_le; eauto.
Qed.

(** [_validate_concurrency] raises a [ValueError] exactly on the numbers
    below 1. *)
Lemma _validate_concurrency_ValueError (c : PyObj) :
  (exists e, Streamable._validate_concurrency c = Err e
             /\ exc_class e = ValueError)
  <-> num_lt 1 c.
Proof.
  unfold Streamable._validate_concurrency. split.
  - intros (e & H & Hc). apply lt_int_true.
    destruct (lt_int c 1) as [[|]|e'] eqn:E; simpl in H; auto; try discriminate.
    exfalso. inversion H; subst.
    destruct c as [ | b | z | [q| | | ] | s | xs | sc | nm f ];
      simpl in E; try discriminate; inversion E; subst; discriminate.
  - intro H. apply lt_int_true in H. rewrite H. simpl.
    eexists; split; reflexivity.
Qed.

Lemma _validate_concurrency_ok (c : PyObj) :
  num_ge 1 c -> Streamable._validate_concurrency c = Ok tt.
Proof.
  intro H. unfold Streamable._validate_concurrency.
  rewrite (lt_int_false_of_ge _ _ H). reflexivity.
Qed.

(** C5. Every builder misuse is rejected by the builder itself, which
    returns no plan: [map], [do] and [flatten] raise for a concurrency
    below 1, [batch] raises for a size below 1 and for seconds at or below
    0, [slow] raises for a frequency at or below 0, and [Stream(source)]
    raises a [TypeError] for a source that is not callable.  The builders
    take the plan only; no source factory is called and no producer is
    made. *)
Theorem builder_misuse_rejected_at_build_time
  (self : Streamable.Stream) (func : Streamable.Func)
  (concurrency size seconds frequency source : PyObj) :
  (num_lt 1 concurrency ->
     raises (Streamable.map self func concurrency) ValueError
     /\ raises (Streamable.do self func concurrency) ValueError
     /\ raises (Streamable.flatten self concurrency) ValueError)
  /\ (num_lt 1 size -> raises (Streamable.batch self size seconds) ValueError)
  /\ (num_le 0 seconds ->
        raises (Streamable.batch self size seconds) ValueError
        \/ (exists e, lt_int size 1 = Err e
                      /\ Streamable.batch self size seconds = Err e))
  /\ (num_le 0 frequency ->
        raises (Streamable.slow self frequency) ValueError)
  /\ (callable source = false ->
        raises (Streamable.__init__ source) TypeError).
Proof.
  repeat split.
  - unfold Streamable.map.
    apply _validate_concurrency_ValueError in H as (e & -> & Hc).
    exists e; auto.
  - unfold Streamable.do.
    apply _validate_concurrency_ValueError in H as (e & -> & Hc).
    exists e; auto.
  - unfold Streamable.flatten.
    apply _validate_concurrency_ValueError in H as (e & -> & Hc).
    exists e; auto.
  - intro H. apply lt_int_true in H. unfold Streamable.batch. rewrite H.
    eexists; split; reflexivity.
  - intro H. unfold Streamable.batch. apply le_int_true in H.
    destruct (lt_int size 1) as [[|]|e]; cbn [bind].
    + left. eexists; split; reflexivity.
    + rewrite H. left. eexists; split; reflexivity.
    + right. eexists; split; reflexivity.
  - intro H. apply le_int_true in H. unfold Streamable.slow. rewrite H.
    eexists; split; reflexivity.
  - intro H. unfold Streamable.__init__. rewrite H.
    eexists; split; reflexivity.
Qed.

Lemma builder_misuse_rejected_at_build_time_witness :
  (raises (Streamable.map a_stream id_func (OInt 0)) ValueError
   /\ raises (Streamable.do a_stream id_func (OInt 0)) ValueError
   /\ raises (Streamable.flatten a_stream (OInt 0)) ValueError)
  /\ raises (Streamable.batch a_stream (OInt 0) (OFloat (Finite 0))) ValueError
  /\ (raises (Streamable.batch a_stream (OInt 0) (OFloat (Finite 0))) ValueError
      \/ (exists e, lt_int (OInt 0) 1 = Err e
                    /\ Streamable.batch a_stream (OInt 0) (OFloat (Finite 0))
                       = Err e))
  /\ raises (Streamable.slow a_stream (OFloat (Finite 0))) ValueError
  /\ raises (Streamable.__init__ (OList [OInt 1])) TypeError.
Proof.
  destruct (builder_misuse_rejected_at_build_time a_stream id_func
              (OInt 0) (OInt 0) (OFloat (Finite 0)) (OFloat (Finite 0))
              (OList [OInt 1]))
    as (H1 & H2 & H3 & H4 & H5).
  split; [apply H1; constructor; lia|].
  split; [apply H2; constructor; lia|].
  split; [apply H3; constructor; vm_compute; discriminate|].
  split; [apply H4; constructor; vm_compute; discriminate|].
  apply H5; reflexivity.
Defined.

(** *** Value checks and type checks of the concurrency *)

Lemma sanitize_n_threads_TypeError (n : PyObj) :
  isinstance_int n = false ->
  exists e, Kioss.sanitize_n_threads n = Err e /\ exc_class e = TypeError.
Proof.
  intro H. unfold Kioss.sanitize_n_threads. rewrite H.
  eexists; split; reflexivity.
Qed.

Lemma sanitize_n_threads_ok (n : PyObj) :
  isinstance_int n = true -> num_ge 1 n -> Kioss.sanitize_n_threads n = Ok tt.
Proof.
  intros H Hge. unfold Kioss.sanitize_n_threads. rewrite H. simpl negb.
  cbv iota. rewrite (lt_int_false_of_ge _ _ Hge). reflexivity.
Qed.

(** C10, as amended. The [Stream] builder checks the value of the
    concurrency and not its type: every number at or above 1 (the float
    2.5 and the boolean [True] among them) is accepted by [map], [do] and
    [flatten], and a [ValueError] is raised exactly for the numbers below
    1.  The kioss builder raises a [TypeError] for every [n_threads] that
    is not an instance of [int]; a [bool] is an instance of [int], and
    every instance of [int] at or above 1 is accepted there too. *)
Theorem concurrency_checked_by_value
  (self : Streamable.Stream) (pipe : Kioss.Pipe) (func : PyObj -> res PyObj)
  (c : PyObj) :
  (num_ge 1 c ->
     Streamable.map self func c = Ok (Streamable.MapStream self func c)
     /\ Streamable.do self func c = Ok (Streamable.DoStream self func c)
     /\ Streamable.flatten self c = Ok (Streamable.FlattenStream self c))
  /\ (raises (Streamable.map self func c) ValueError <-> num_lt 1 c)
  /\ (raises (Streamable.do self func c) ValueError <-> num_lt 1 c)
  /\ (raises (Streamable.flatten self c) ValueError <-> num_lt 1 c)
  /\ (isinstance_int c = false ->
        raises (Kioss.map pipe func c) TypeError
        /\ raises (Kioss.do pipe func c) TypeError
        /\ raises (Kioss.flatten pipe c) TypeError)
  /\ (isinstance_int c = true -> num_ge 1 c ->
        Kioss.map pipe func c = Ok (Kioss.MapPipe pipe func c)
        /\ Kioss.do pipe func c = Ok (Kioss.DoPipe pipe func c)
        /\ Kioss.flatten pipe c = Ok (Kioss.FlattenPipe pipe c)).
Proof.
  assert (Hiff : forall (A : Type) (k : Streamable.Stream -> A) (s : Streamable.Stream),
    raises (Streamable._validate_concurrency c ;;; Ok (k s)) ValueError
    <-> num_lt 1 c).
  { intros A k s. rewrite <- _validate_concurrency_ValueError.
    unfold raises.
    destruct (Streamable._validate_concurrency c) as [[]|e]; simpl.
    - split; intros (e & H & _); discriminate.
    - split; intros (e' & H & Hc); inversion H; subst; eauto. }
  split; [|split; [|split; [|split; [|split]]]].
  - intro H. unfold Streamable.map, Streamable.do, Streamable.flatten.
    rewrite (_validate_concurrency_ok _ H). repeat split; reflexivity.
  - apply (Hiff _ (fun s => Streamable.MapStream s func c)).
  - apply (Hiff _ (fun s => Streamable.DoStream s func c)).
  - apply (Hiff _ (fun s => Streamable.FlattenStream s c)).
  - intro H. unfold Kioss.map, Kioss.do, Kioss.flatten, raises.
    destruct (sanitize_n_threads_TypeError _ H) as (e & -> & Hc).
    simpl; repeat split; exists e; auto.
  - intros H Hge. unfold Kioss.map, Kioss.do, Kioss.flatten.
    rewrite (sanitize_n_threads_ok _ H Hge). repeat split; reflexivity.
Qed.

Lemma concurrency_checked_by_value_witness :
  (Streamable.map a_stream id_func (OFloat (Finite (5 # 2)))
   = Ok (Streamable.MapStream a_stream id_func (OFloat (Finite (5 # 2)))))
  /\ (Streamable.map a_stream id_func (OBool true)
      = Ok (Streamable.MapStream a_stream id_func (OBool true)))
  /\ raises (Streamable.map a_stream id_func (OInt 0)) ValueError
  /\ raises (Kioss.map a_pipe id_func (OFloat (Finite (5 # 2)))) TypeError
  /\ (Kioss.map a_pipe id_func (OBool true)
      = Ok (Kioss.MapPipe a_pipe id_func (OBool true))).
Proof.
  split.
  { apply (concurrency_checked_by_value a_stream a_pipe id_func
             (OFloat (Finite (5 # 2)))).
    constructor. vm_compute. discriminate. }
  split.
  { apply (concurrency_checked_by_value a_stream a_pipe id_func (OBool true)).
    constructor. simpl. lia. }
  split.
  { apply (concurrency_checked_by_value a_stream a_pipe id_func (OInt 0)).
    constructor. lia. }
  split.
  { apply (concurrency_checked_by_value a_stream a_pipe id_func
             (OFloat (Finite (5 # 2)))).
    reflexivity. }
  apply (concurrency_checked_by_value a_stream a_pipe id_func (OBool true)).
  - reflexivity.
  - constructor. simpl. lia.
Defined.

(** C10, as stated, fails at the boolean [True]: the statement counts
    it among the non-integers at or above 1, for which the kioss builder
    is said to raise a [TypeError], and the kioss builder accepts it. *)
Lemma kioss_builder_accepts_True :
  type_is_int (OBool true) = false
  /\ num_ge 1 (OBool true)
  /\ Kioss.sanitize_n_threads (OBool true) = Ok tt
  /\ Kioss.map a_pipe id_func (OBool true)
     = Ok (Kioss.MapPipe a_pipe id_func (OBool true)).
Proof.
  repeat split. constructor. simpl. lia.
Qed.

(** *** The source check of the kioss visitor *)


(** C6, as amended. If the source factory returns an object that is not
    an iterator, the plan is built without error and the error is raised
    when the visitor compiles the Source node into a producer, before any
    pull: a [TypeError] whose message includes the offending value and its
    type, chained to the error of the duck-type check.  A factory
    returning a proper iterator raises nothing and the producer is that
    iterator. *)
Theorem source_checked_when_compiled {lib : ExecLib} (source obj : PyObj) :
  call0 source = Ok obj ->
  Kioss.SourcePipe__init__ source = Ok (Kioss.SourcePipe source)
  /\ (is_iterator obj = false ->
        exists e, accept (Kioss.SourcePipe source) = Err e
                  /\ exc_class e = TypeError
                  /\ In (Fmt obj) (exc_msg e)
                  /\ In (FmtType obj) (exc_msg e)
                  /\ exc_cause e <> None)
  /\ (is_iterator obj = true ->
        accept (Kioss.SourcePipe source) = Ok (script_of obj)
        /\ obj = OIterator (script_of obj)).
Proof.
  intro Hcall. split; [|split].
  - destruct source; simpl in Hcall; try discriminate. reflexivity.
  - intro Hobj. simpl. unfold visitSourcePipe. rewrite Hcall. cbn [bind].
    destruct obj; simpl in Hobj; try discriminate; simpl;
      (eexists; split; [reflexivity|]; simpl;
       repeat split; auto; discriminate).
  - intro Hobj. simpl. unfold visitSourcePipe. rewrite Hcall. cbn [bind].
    destruct obj; simpl in Hobj; try discriminate. simpl. auto.
Qed.

Lemma source_checked_when_compiled_witness :
  Kioss.SourcePipe__init__ list_source = Ok (Kioss.SourcePipe list_source)
  /\ (exists e, @accept passthrough_lib (Kioss.SourcePipe list_source) = Err e
                /\ exc_class e = TypeError
                /\ In (Fmt (OList [OInt 1; OInt 2])) (exc_msg e)
                /\ In (FmtType (OList [OInt 1; OInt 2])) (exc_msg e)
                /\ exc_cause e <> None)
  /\ @accept passthrough_lib (Kioss.SourcePipe a_source)
     = Ok [Ok (OInt 1); Ok (OInt 2)].
Proof.
  split; [|split].
  - apply (@source_checked_when_compiled passthrough_lib list_source
             (OList [OInt 1; OInt 2])); reflexivity.
  - apply (@source_checked_when_compiled passthrough_lib list_source
             (OList [OInt 1; OInt 2])); reflexivity.
  - apply (@source_checked_when_compiled passthrough_lib a_source
             (OIterator [Ok (OInt 1); Ok (OInt 2)])); reflexivity.
Defined.

(** C6, as stated, fails: for a factory returning a list there is no
    Source producer whose first pull could raise; the visitor raises the
    [TypeError] itself, and so does compiling any plan above that source
    before its first pull. *)
Lemma source_error_raised_before_first_pull :
  (forall it, @accept passthrough_lib (Kioss.SourcePipe list_source) <> Ok it)
  /\ (exists e, visitSourcePipe list_source = Err e
                /\ exc_class e = TypeError)
  /\ (exists e, @accept passthrough_lib
                  (Kioss.MapPipe (Kioss.SourcePipe list_source) id_func (OInt 1))
                = Err e /\ exc_class e = TypeError).
Proof.
  split; [|split].
  - intros it H. vm_compute in H. discriminate.
  - eexists; split; reflexivity.
  - eexists; split; reflexivity.
Qed.

(** *** The log of an Observe node *)

Lemma observing_run_unfold (what : string) (colored : bool)
  (st : nat * Iterator) :
  Observing.observing_run what colored st =
  match Observing.observing_next what colored st with
  | (StopIteration, _, log) => ([], log)
  | (Item x, st', log) =>
      (Ok x :: fst (Observing.observing_run what colored st'),
       log ++ snd (Observing.observing_run what colored st'))
  | (Error e, st', log) =>
      (Err e :: fst (Observing.observing_run what colored st'),
       log ++ snd (Observing.observing_run what colored st'))
  end.
Proof.
  rewrite Observing.observing_run_equation_1. unfold inspect.
  assert (H : forall r (e : Observing.observing_next what colored st = r),
    Observing.observing_run_unfold_clause_1 what colored st (exist _ r e) =
    match r with
    | (StopIteration, _, log) => ([], log)
    | (Item x, st', log) =>
        (Ok x :: fst (Observing.observing_run what colored st'),
         log ++ snd (Observing.observing_run what colored st'))
    | (Error e, st', log) =>
        (Err e :: fst (Observing.observing_run what colored st'),
         log ++ snd (Observing.observing_run what colored st'))
    end) by (intros [[[x|e0|] st'] log] e; reflexivity).
  apply H.
Qed.

(** The observing producer yields and raises what its upstream does, and
    its log is the one read off the upstream script. *)
Lemma observing_run_script_and_log (what : string) (colored : bool) :
  forall it count,
  Observing.observing_run what colored (count, it)
  = (it, observing_log what colored count it).
Proof.
  induction it as [|[x|e] it IH]; intro count;
    rewrite observing_run_unfold; unfold Observing.observing_next; simpl.
  - reflexivity.
  - rewrite IH. reflexivity.
  - rewrite IH. reflexivity.
Qed.

Lemma is_power_of_two_spec (n : nat) :
  Observing.is_power_of_two n = true <-> exists k, n = (2 ^ k)%nat.
Proof.
  unfold Observing.is_power_of_two. rewrite andb_true_iff.
  rewrite Nat.ltb_lt, Nat.eqb_eq. split.
  - intros [_ H]. exists (Nat.log2 n). symmetry. exact H.
  - intros [k ->]. split.
    + apply Nat.neq_0_lt_0. apply Nat.pow_nonzero. discriminate.
    + rewrite Nat.log2_pow2 by lia. reflexivity.
Qed.

Lemma log_entry_has_ansi (what : string) (colored : bool) (count : nat) :
  has_ansi (Observing.log_entry what colored count) = colored.
Proof. destruct colored; reflexivity. Qed.

Lemma log_entry_names_what (what : string) (colored : bool) (count : nat) :
  In (Observing.What what) (Observing.log_entry what colored count).
Proof. destruct colored; simpl; auto. Qed.

(** Every entry of the log is the entry of a count that is a power of
    two, or of the final count. *)
Lemma observing_log_entries (what : string) (colored : bool) :
  forall it count entry,
  In entry (observing_log what colored count it) ->
  exists n, entry = Observing.log_entry what colored n
            /\ ((exists k, n = (2 ^ k)%nat)
                \/ n = (count + List.length (elements it))%nat).
Proof.
  induction it as [|[x|e] it IH]; intros count entry H; simpl in H.
  - destruct H as [<-|[]]. exists count. split; [reflexivity|].
    right. simpl. lia.
  - apply in_app_or in H as [H|H].
    + destruct (Observing.is_power_of_two (S count)) eqn:E;
        [|destruct H].
      destruct H as [<-|[]]. exists (S count). split; [reflexivity|].
      left. apply is_power_of_two_spec. exact E.
    + apply IH in H as (n & -> & [Hn|Hn]); exists n;
        (split; [reflexivity|]); [left; exact Hn|].
      right. simpl. lia.
  - apply IH in H as (n & -> & Hn). exists n. split; [reflexivity|].
    exact Hn.
Qed.

Lemma observing_log_ends_with_final (what : string) (colored : bool) :
  forall it count,
  In (Observing.log_entry what colored
        (count + List.length (elements it))%nat)
     (observing_log what colored count it).
Proof.
  induction it as [|[x|e] it IH]; intro count; simpl.
  - left. f_equal. lia.
  - apply in_or_app. right.
    replace (count + S (List.length (elements it)))%nat
      with (S count + List.length (elements it))%nat by lia.
    apply IH.
  - apply IH.
Qed.



(** *** Chain *)

Lemma chain_drain (its : list Iterator) : forall k,
  drain chain_step chain_size chain_step_decr (k, its) = List.concat its.
Proof.
  induction its as [|it rest IH]; intro k.
  - rewrite drain_unfold. reflexivity.
  - induction it as [|o it IHit].
    + rewrite drain_unfold. simpl. rewrite <- (IH (S k)).
      rewrite (drain_unfold _ _ _ (S k, rest)). reflexivity.
    + rewrite drain_unfold.
      destruct o as [x|e]; cbn; rewrite IHit; reflexivity.
Qed.

Lemma chain_trace_labelled (its : list Iterator) : forall k,
  chain_trace k its = labelled k its.
Proof.
  induction its as [|it rest IH]; intro k.
  - rewrite chain_trace_unfold. reflexivity.
  - induction it as [|o it IHit].
    + rewrite chain_trace_unfold. simpl. rewrite <- (IH (S k)).
      rewrite (chain_trace_unfold (S k) rest). reflexivity.
    + rewrite chain_trace_unfold. simpl.
      destruct o as [x|e]; simpl; rewrite IHit; reflexivity.
Qed.

Lemma itertools_chain_concat (its : list Iterator) :
  itertools_chain its = List.concat its.
Proof. apply chain_drain. Qed.

(** A pull of the chaining producer is answered by the first iterator
    that is not exhausted; those before it are exhausted and dropped,
    those after it are left as they are. *)
Lemma chain_next_first_live : forall its k p i st',
  chain_next k its = (p, i, st') -> p <> StopIteration ->
  exists o it rest,
    its = repeat [] (i - k) ++ (o :: it) :: rest
    /\ (k <= i)%nat /\ p = pull_of o /\ st' = (i, it :: rest).
Proof.
  induction its as [|it0 rest0 IH]; intros k p i st' H Hp; simpl in H.
  - inversion H; subst; congruence.
  - destruct it0 as [|o it]; simpl in H.
    + apply IH in H as (o & it & rest & -> & Hk & -> & ->); auto.
      exists o, it, rest. repeat split; try lia.
      replace (i - k)%nat with (S (i - S k)) by lia. reflexivity.
    + exists o, it, rest0.
      destruct o; inversion H; subst; rewrite Nat.sub_diag;
        repeat split; auto.
Qed.

(** C4. Iterating [a.chain(b, c)] yields what [a] yields, then what [b]
    yields, then what [c] yields, for the kioss visitor and for the
    [Stream] plan alike.  Every pull of the chaining producer is answered
    by the first stream that is not exhausted, the streams after it being
    left untouched; so in its run every pull answered by [a] precedes
    every pull of [b], and every pull answered by [b] precedes every pull
    of [c]. *)
Theorem chain_is_concatenation {lib : ExecLib}
  (a b c : Kioss.Pipe) (sa sb sc : Streamable.Stream) (ia ib ic : Iterator) :
  accept a = Ok ia -> accept b = Ok ib -> accept c = Ok ic ->
  Streamable.__iter__ sa = Ok ia -> Streamable.__iter__ sb = Ok ib ->
  Streamable.__iter__ sc = Ok ic ->
  accept (Kioss.chain a [b; c]) = Ok (ia ++ ib ++ ic)
  /\ Streamable.__iter__ (Streamable.chain sa [sb; sc]) = Ok (ia ++ ib ++ ic)
  /\ chain_trace 0 [ia; ib; ic]
     = List.map (pair 0%nat) ia ++ List.map (pair 1%nat) ib
       ++ List.map (pair 2%nat) ic
  /\ List.map snd (chain_trace 0 [ia; ib; ic]) = itertools_chain [ia; ib; ic]
  /\ (forall its p i st',
        chain_next 0 its = (p, i, st') -> p <> StopIteration ->
        exists o it rest,
          its = repeat [] i ++ (o :: it) :: rest
          /\ p = pull_of o /\ st' = (i, it :: rest)).
Proof.
  intros Ha Hb Hc Hsa Hsb Hsc.
  assert (Hcat : itertools_chain [ia; ib; ic] = ia ++ ib ++ ic).
  { rewrite itertools_chain_concat. simpl. rewrite app_nil_r. reflexivity. }
  assert (Htr : chain_trace 0 [ia; ib; ic]
     = List.map (pair 0%nat) ia ++ List.map (pair 1%nat) ib
       ++ List.map (pair 2%nat) ic).
  { rewrite chain_trace_labelled. simpl. rewrite app_nil_r. reflexivity. }
  split; [|split; [|split; [|split]]].
  - simpl. unfold visitChainPipe. simpl. rewrite Ha, Hb, Hc. simpl.
    rewrite Hcat. reflexivity.
  - simpl. rewrite Hsa, Hsb, Hsc. simpl. rewrite Hcat. reflexivity.
  - exact Htr.
  - rewrite Htr, Hcat. rewrite !List.map_app, !List.map_map. simpl.
    rewrite !List.map_id. reflexivity.
  - intros its p i st' H Hp.
    destruct (chain_next_first_live its 0 p i st' H Hp)
      as (o & it & rest & Hits & _ & Hpull & Hst).
    rewrite Nat.sub_0_r in Hits. exists o, it, rest. auto.
Qed.

Lemma chain_is_concatenation_witness :
  @accept passthrough_lib
    (Kioss.chain a_pipe [Kioss.SourcePipe b_source; Kioss.SourcePipe c_source])
  = Ok [Ok (OInt 1); Ok (OInt 2); Ok (OInt 3);
        Err (MkExc ZeroDivisionError [] None); Ok (OInt 4); Ok (OInt 5)]
  /\ chain_trace 0 [ [Ok (OInt 1); Ok (OInt 2)];
                     [Ok (OInt 3); Err (MkExc ZeroDivisionError [] None);
                      Ok (OInt 4)];
                     [Ok (OInt 5)] ]
     = [(0, Ok (OInt 1)); (0, Ok (OInt 2)); (1, Ok (OInt 3));
        (1, Err (MkExc ZeroDivisionError [] None)); (1, Ok (OInt 4));
        (2, Ok (OInt 5))]%nat.
Proof.
  destruct (@chain_is_concatenation passthrough_lib
              a_pipe (Kioss.SourcePipe b_source) (Kioss.SourcePipe c_source)
              a_stream (Streamable.SourceStream b_source)
              (Streamable.SourceStream c_source)
              [Ok (OInt 1); Ok (OInt 2)]
              [Ok (OInt 3); Err (MkExc ZeroDivisionError [] None); Ok (OInt 4)]
              [Ok (OInt 5)]
              eq_refl eq_refl eq_refl eq_refl eq_refl eq_refl)
    as (H1 & _ & H3 & _ & _).
  split; [exact H1 | exact H3].
Defined.

(** *** Map *)

Section ThreadedMap.
Variable func : PyObj -> res PyObj.
Variable capacity : nat.
Hypothesis capacity_pos : (1 <= capacity)%nat.

Lemma submit_ahead_script : forall it futures,
  fst (submit_ahead func capacity futures it)
    ++ builtin_map func (snd (submit_ahead func capacity futures it))
  = futures ++ builtin_map func it.
Proof.
  induction it as [|o it IH]; intro futures; simpl; auto.
  destruct (List.length futures <? capacity)%nat; simpl; auto.
  rewrite IH. rewrite <- app_assoc. reflexivity.
Qed.

Lemma submit_ahead_empty : forall it futures,
  fst (submit_ahead func capacity futures it) = [] ->
  futures = [] /\ it = [].
Proof.
  induction it as [|o it IH]; intro futures; simpl; auto.
  destruct (List.length futures <? capacity)%nat eqn:E; simpl.
  - intro H. apply IH in H as [H _]. destruct futures; discriminate.
  - intro H; subst. simpl in E. apply Nat.ltb_ge in E. lia.
Qed.

Lemma threaded_drain : forall m futures it,
  (threaded_size (futures, it) <= m)%nat ->
  drain (threaded_next func capacity) threaded_size
        (threaded_next_decr func capacity) (futures, it)
  = futures ++ builtin_map func it.
Proof.
  induction m as [|m IH]; intros futures it Hm;
    rewrite drain_unfold; unfold threaded_next at 1; simpl fst; simpl snd;
    pose proof (submit_ahead_script it futures) as Hs;
    pose proof (submit_ahead_size func capacity it futures) as Hz;
    pose proof (submit_ahead_empty it futures) as He;
    destruct (submit_ahead func capacity futures it) as [fs it'];
    simpl in Hs, He; destruct fs as [|r fs'].
  - destruct (He eq_refl); subst. reflexivity.
  - unfold threaded_size in *; simpl in *; lia.
  - destruct (He eq_refl); subst. reflexivity.
  - rewrite <- Hs.
    assert (Hr : drain (threaded_next func capacity) threaded_size
                   (threaded_next_decr func capacity) (fs', it')
                 = fs' ++ builtin_map func it').
    { apply IH. unfold threaded_size in *; simpl in *; lia. }
    destruct r as [x|e]; simpl; rewrite Hr; reflexivity.
Qed.
End ThreadedMap.

Lemma ThreadedMappingIteratorWrapper_in_order
  (it : Iterator) (func : PyObj -> res PyObj) (k : Z) :
  1 <= k ->
  ThreadedMappingIteratorWrapper it func (OInt k) = builtin_map func it.
Proof.
  intro Hk. unfold ThreadedMappingIteratorWrapper.
  rewrite (threaded_drain func (fifo_capacity (OInt k))) with
    (m := threaded_size ([], it)); auto.
  simpl. lia.
Qed.

Lemma builtin_map_elements (func : PyObj -> res PyObj) (xs : list PyObj) :
  builtin_map func (List.map Ok xs) = List.map func xs.
Proof.
  unfold builtin_map. rewrite List.map_map. reflexivity.
Qed.

Lemma mapping_producer_in_order
  (it : Iterator) (func : PyObj -> res PyObj) (k : Z) :
  1 <= k -> Streamable.mapping_producer it func (OInt k) = builtin_map func it.
Proof.
  intro Hk. unfold Streamable.mapping_producer.
  destruct (eq_int (OInt k) 1); auto.
  apply ThreadedMappingIteratorWrapper_in_order; assumption.
Qed.

(** C3. For every function [func], every integer concurrency [k >= 1]
    and every upstream, the builders accept [map(func, k)] and the
    producer compiled from it has the upstream script with [func] applied
    to each element, in upstream order (an upstream error keeps its
    place); for an upstream that yields [xs] without error the producer
    yields exactly [func x] for each [x] of [xs] in order.  This holds for
    the kioss visitor and for the [Stream] plan, with [builtin map] at
    [k = 1] and the concurrent mapping producer above it. *)
Theorem map_yields_images_in_order {lib : ExecLib}
  (upstream : Kioss.Pipe) (self : Streamable.Stream)
  (func : PyObj -> res PyObj) (k : Z) (up : Iterator) :
  1 <= k ->
  accept upstream = Ok up ->
  Streamable.__iter__ self = Ok up ->
  (exists pipe, Kioss.map upstream func (OInt k) = Ok pipe
                /\ accept pipe = Ok (builtin_map func up))
  /\ (exists stream, Streamable.map self func (OInt k) = Ok stream
                     /\ Streamable.__iter__ stream = Ok (builtin_map func up))
  /\ (forall xs, up = List.map Ok xs ->
        builtin_map func up = List.map func xs).
Proof.
  intros Hk Hup Hself. split; [|split].
  - exists (Kioss.MapPipe upstream func (OInt k)). split.
    + unfold Kioss.map. rewrite sanitize_n_threads_ok; auto.
      constructor; assumption.
    + simpl. unfold visitMapPipe. rewrite Hup.
      destruct (eq_int (OInt k) 1); simpl; auto.
      rewrite ThreadedMappingIteratorWrapper_in_order; auto.
  - exists (Streamable.MapStream self func (OInt k)). split.
    + unfold Streamable.map. rewrite _validate_concurrency_ok; auto.
      constructor; assumption.
    + simpl. rewrite Hself. simpl.
      rewrite mapping_producer_in_order; auto.
  - intros xs ->. apply builtin_map_elements.
Qed.

Lemma map_yields_images_in_order_witness :
  (exists pipe, Kioss.map a_pipe square (OInt 3) = Ok pipe
                /\ @accept passthrough_lib pipe
                   = Ok (builtin_map square [Ok (OInt 1); Ok (OInt 2)]))
  /\ (exists stream, Streamable.map a_stream square (OInt 3) = Ok stream
                     /\ @Streamable.__iter__ passthrough_lib stream
                        = Ok (builtin_map square [Ok (OInt 1); Ok (OInt 2)]))
  /\ (forall xs, [Ok (OInt 1); Ok (OInt 2)] = List.map (@Ok PyExc PyObj) xs ->
        builtin_map square [Ok (OInt 1); Ok (OInt 2)] = List.map square xs).
Proof.
  apply (@map_yields_images_in_order passthrough_lib a_pipe a_stream square 3
           [Ok (OInt 1); Ok (OInt 2)]).
  - lia.
  - reflexivity.
  - reflexivity.
Defined.

(** *** The iteration driver *)

Lemma deferred_loop_run (limit : Z) : forall up l out,
  for_each
    (catching_step [Exception]
       (Some (Streamable.register_error_sample
                Streamable._RUN_MAX_NUM_ERROR_SAMPLES)))
    catching_size
    (catching_step_decr [Exception]
       (Some (Streamable.register_error_sample
                Streamable._RUN_MAX_NUM_ERROR_SAMPLES)))
    limit (up, l) out
  = deferred_run limit up l out.
Proof.
  induction up as [|[x|e] up IH]; intros l out; rewrite for_each_unfold.
  - reflexivity.
  - cbn. apply IH.
  - cbn [catching_step fst snd catching_next deferred_run].
    destruct (isinstance_any e [Exception]); [|reflexivity].
    cbn. rewrite <- IH. rewrite (for_each_unfold _ _ _ _ (up, _)).
    reflexivity.
Qed.

Lemma fail_fast_loop_run (limit : Z) : forall up out,
  for_each next (@List.length _) Streamable.next_decr limit up out
  = fail_fast_run limit up out.
Proof.
  induction up as [|[x|e] up IH]; intros out; rewrite for_each_unfold.
  - reflexivity.
  - cbn. apply IH.
  - reflexivity.
Qed.

(** Appending while below a bound keeps the first entries only. *)
Lemma collect_firstn (limit : Z) (xs : list PyObj) : forall out,
  fold_left (collect limit) xs out
  = out ++ firstn (Z.to_nat limit - List.length out) xs.
Proof.
  induction xs as [|x xs IH]; intro out; simpl.
  - rewrite firstn_nil, app_nil_r. reflexivity.
  - rewrite IH. unfold collect.
    destruct (Z.of_nat (List.length out) <? limit) eqn:E.
    + apply Z.ltb_lt in E.
      replace (Z.to_nat limit - List.length out)%nat
        with (S (Z.to_nat limit - List.length (out ++ [x])))%nat
        by (rewrite List.length_app; simpl; lia).
      simpl. rewrite <- app_assoc. reflexivity.
    + apply Z.ltb_ge in E.
      replace (Z.to_nat limit - List.length out)%nat with 0%nat by lia.
      reflexivity.
Qed.

Lemma register_all_count (errs : list PyExc) : forall l,
  Streamable.errors_count (register_all errs l)
  = Streamable.errors_count l + Z.of_nat (List.length errs).
Proof.
  induction errs as [|e errs IH]; intro l.
  - simpl. lia.
  - unfold register_all in *. simpl fold_left. rewrite IH.
    unfold Streamable.register_error_sample. simpl snd.
    match goal with |- context [if ?c then _ else _] => destruct c end;
      simpl; lia.
Qed.

Lemma register_all_samples (errs : list PyExc) : forall l,
  Streamable.error_samples (register_all errs l)
  = Streamable.error_samples l
    ++ firstn (8 - List.length (Streamable.error_samples l)) errs.
Proof.
  induction errs as [|e errs IH]; intro l.
  - simpl. rewrite firstn_nil, app_nil_r. reflexivity.
  - unfold register_all in *. simpl fold_left. rewrite IH.
    unfold Streamable.register_error_sample,
      Streamable._RUN_MAX_NUM_ERROR_SAMPLES. simpl snd.
    match goal with |- context [if ?c then _ else _] =>
      destruct c eqn:E end; cbn [Streamable.error_samples] in *.
    + apply Z.ltb_lt in E.
      replace (8 - List.length (Streamable.error_samples l))%nat
        with (S (8 - List.length (Streamable.error_samples l ++ [e])))%nat
        by (rewrite List.length_app; cbn [List.length]; lia).
      simpl. rewrite <- app_assoc. reflexivity.
    + apply Z.ltb_ge in E.
      replace (8 - List.length (Streamable.error_samples l))%nat
        with 0%nat by lia.
      reflexivity.
Qed.

Section DriverFacts.
Variable limit : Z.

(** A loop that ends normally has pulled the whole script, counted and
    sampled every error, and kept the first elements. *)
Lemma deferred_run_completed : forall up l out rest l' out',
  deferred_run limit up l out = (None, (rest, l'), out') ->
  rest = []
  /\ l' = register_all (errors up) l
  /\ out' = fold_left (collect limit) (elements up) out
  /\ Forall is_Exception (errors up).
Proof.
  induction up as [|[x|e] up IH]; intros l out rest l' out' H;
    cbn [deferred_run] in H.
  - inversion H; subst. repeat split; constructor.
  - apply IH in H. exact H.
  - destruct (isinstance_any e [Exception]) eqn:E; [|discriminate].
    apply IH in H as (H1 & H2 & H3 & H4).
    repeat split; auto. constructor; auto.
    unfold is_Exception. unfold isinstance_any in E. cbn [existsb] in E.
    rewrite orb_false_r in E. exact E.
Qed.

(** The loop ends normally when every error is an [Exception]. *)
Lemma deferred_run_completes : forall up l out,
  Forall is_Exception (errors up) ->
  fst (fst (deferred_run limit up l out)) = None.
Proof.
  induction up as [|[x|e] up IH]; intros l out H; cbn [deferred_run].
  - reflexivity.
  - apply IH; exact H.
  - simpl in H. inversion H as [|? ? He Hrest]; subst.
    assert (Hi : isinstance_any e [Exception] = true).
    { unfold isinstance_any. cbn [existsb]. rewrite orb_false_r.
      exact He. }
    rewrite Hi. apply IH; exact Hrest.
Qed.

Lemma register_error_sample_sampled (e : PyExc) (l : Streamable.Locals) :
  sampled l ->
  sampled (snd (Streamable.register_error_sample
                  Streamable._RUN_MAX_NUM_ERROR_SAMPLES e l)).
Proof.
  intros [H0 H1]. unfold Streamable.register_error_sample,
    Streamable._RUN_MAX_NUM_ERROR_SAMPLES. simpl snd.
  match goal with |- context [if ?c then _ else _] =>
    destruct c eqn:E end; split; simpl in *; try lia; intros _.
  - destruct (Streamable.error_samples l); discriminate.
  - apply Z.ltb_ge in E.
    destruct (Streamable.error_samples l); simpl in E; [lia|discriminate].
Qed.

Lemma deferred_run_sampled : forall up l out,
  sampled l -> sampled (snd (snd (fst (deferred_run limit up l out)))).
Proof.
  induction up as [|[x|e] up IH]; intros l out H; cbn [deferred_run].
  - exact H.
  - apply IH; exact H.
  - destruct (isinstance_any e [Exception]).
    + apply IH. apply register_error_sample_sampled; exact H.
    + exact H.
Qed.

(** The loop over a bare iterator stops at the first error. *)
Lemma fail_fast_run_error : forall pre e post out,
  errors pre = [] ->
  fail_fast_run limit (pre ++ Err e :: post) out
  = (Some e, post, fold_left (collect limit) (elements pre) out).
Proof.
  induction pre as [|[x|e0] pre IH]; intros e post out H; simpl in *.
  - reflexivity.
  - apply IH; exact H.
  - discriminate.
Qed.

Lemma fail_fast_run_completed : forall up out exc rest out',
  fail_fast_run limit up out = (exc, rest, out') ->
  exc = None <-> errors up = [].
Proof.
  induction up as [|[x|e] up IH]; intros out exc rest out' H; simpl in H.
  - inversion H; subst. simpl. tauto.
  - simpl. eapply IH; eauto.
  - inversion H; subst. simpl. split; discriminate.
Qed.

Lemma fail_fast_run_no_error : forall up out,
  errors up = [] ->
  fail_fast_run limit up out
  = (None, [], fold_left (collect limit) (elements up) out).
Proof.
  induction up as [|[x|e] up IH]; intros out H; simpl in *.
  - reflexivity.
  - apply IH; exact H.
  - discriminate.
Qed.
End DriverFacts.

Lemma iter_observed {lib : ExecLib} (self : Streamable.Stream) :
  Streamable.__iter__ (observed self) = Streamable.__iter__ self.
Proof.
  unfold observed. destruct (negb (Streamable.is_ObserveStream self)); auto.
  simpl. destruct (Streamable.__iter__ self); reflexivity.
Qed.

Lemma iterate_deferred {lib : ExecLib} (self : Streamable.Stream)
  (collect_limit raise_if_more_errors_than : Z) (up : Iterator) :
  0 <= collect_limit -> 0 <= raise_if_more_errors_than ->
  Streamable.__iter__ self = Ok up ->
  Streamable.iterate self collect_limit raise_if_more_errors_than false
  = match deferred_run collect_limit up no_locals [] with
    | (Some e, (rest, l), _) => Streamable.aborted e l rest
    | (None, (rest, l), output_samples) =>
        Streamable.after_loop Streamable._RUN_MAX_NUM_ERROR_SAMPLES
          raise_if_more_errors_than l output_samples rest
    end.
Proof.
  intros Hc Hr Hup. unfold Streamable.iterate.
  apply Z.ltb_ge in Hc, Hr. rewrite Hc, Hr. cbv zeta. cbn [negb].
  fold (observed self). rewrite iter_observed, Hup.
  rewrite (deferred_loop_run collect_limit up). reflexivity.
Qed.

Lemma iterate_fail_fast {lib : ExecLib} (self : Streamable.Stream)
  (collect_limit raise_if_more_errors_than : Z) (up : Iterator) :
  0 <= collect_limit -> 0 <= raise_if_more_errors_than ->
  Streamable.__iter__ self = Ok up ->
  Streamable.iterate self collect_limit raise_if_more_errors_than true
  = match fail_fast_run collect_limit up [] with
    | (Some e, rest, _) => Streamable.aborted e no_locals rest
    | (None, rest, output_samples) =>
        Streamable.after_loop Streamable._RUN_MAX_NUM_ERROR_SAMPLES
          raise_if_more_errors_than no_locals output_samples rest
    end.
Proof.
  intros Hc Hr Hup. unfold Streamable.iterate.
  apply Z.ltb_ge in Hc, Hr. rewrite Hc, Hr. cbv zeta. cbn [negb].
  fold (observed self). rewrite iter_observed, Hup.
  rewrite (fail_fast_loop_run collect_limit up). reflexivity.
Qed.

Lemma iterate_rejects_negative {lib : ExecLib} (self : Streamable.Stream)
  (collect_limit raise_if_more_errors_than : Z) (fail_fast : bool) :
  collect_limit < 0 \/ raise_if_more_errors_than < 0 ->
  exists e, Streamable.iterate self collect_limit raise_if_more_errors_than
              fail_fast = Streamable.not_run e
            /\ exc_class e = ValueError.
Proof.
  intro H. unfold Streamable.iterate.
  destruct (collect_limit <? 0) eqn:Ec.
  - eexists; split; reflexivity.
  - destruct (raise_if_more_errors_than <? 0) eqn:Er.
    + eexists; split; reflexivity.
    + apply Z.ltb_ge in Ec, Er. lia.
Qed.

Lemma sampled_no_locals : sampled no_locals.
Proof. split; simpl; lia. Qed.

(** C1. With [fail_fast=False], for every stream whose errors are
    instances of [Exception]: the wrapping predicate returns true for
    every error, the stream is pulled to its end past the errors, every
    error is counted, the first 8 errors (and no more) are the samples,
    and after exhaustion the first error is re-raised if and only if the
    number of errors is strictly greater than [raise_if_more_errors_than];
    otherwise the collected elements are returned. *)
Theorem iterate_defers_errors {lib : ExecLib} (self : Streamable.Stream)
  (collect_limit raise_if_more_errors_than : Z) (up : Iterator) :
  0 <= collect_limit -> 0 <= raise_if_more_errors_than ->
  Streamable.__iter__ self = Ok up ->
  Forall is_Exception (errors up) ->
  let run := Streamable.iterate self collect_limit raise_if_more_errors_than
               false in
  let count := Z.of_nat (List.length (errors up)) in
  (forall e l,
     fst (Streamable.register_error_sample
            Streamable._RUN_MAX_NUM_ERROR_SAMPLES e l) = Ok true)
  /\ Streamable.unpulled run = []
  /\ Streamable.final_errors_count run = count
  /\ Streamable.final_error_samples run = firstn 8 (errors up)
  /\ (List.length (Streamable.final_error_samples run) <= 8)%nat
  /\ (raise_if_more_errors_than < count ->
        exists first, hd_error (errors up) = Some first
                      /\ Streamable.outcome run = Err first)
  /\ (count <= raise_if_more_errors_than ->
        Streamable.outcome run
        = Ok (firstn (Z.to_nat collect_limit) (elements up)))
  /\ Streamable.error_log run
     = (if 0 <? count then Some (8, firstn 8 (errors up)) else None).
Proof.
  intros Hc Hr Hup Hex run count. subst run.
  rewrite (iterate_deferred self _ _ up Hc Hr Hup).
  pose proof (deferred_run_completes collect_limit up no_locals [] Hex) as Hn.
  destruct (deferred_run collect_limit up no_locals [])
    as [[exc [rest l]] out] eqn:E.
  simpl in Hn; subst exc.
  apply deferred_run_completed in E as (-> & -> & -> & _).
  rewrite collect_firstn. simpl app. rewrite Nat.sub_0_r.
  unfold Streamable.after_loop.
  rewrite register_all_count, register_all_samples.
  change (8 - List.length (Streamable.error_samples no_locals))%nat
    with 8%nat.
  pose proof (firstn_le_length 8 (errors up)) as Hlen.
  set (samples := firstn 8 (errors up)) in *.
  simpl. fold count.
  split; [intros; reflexivity|].
  destruct (0 <? count) eqn:E0; simpl;
    (split; [reflexivity|]); (split; [reflexivity|]);
    (split; [reflexivity|]); (split; [exact Hlen|]).
  - split; [|split; [|reflexivity]].
    + intro H. apply Z.ltb_lt in H. rewrite H. subst samples.
      destruct (errors up) as [|first errs]; [simpl in count; lia|].
      exists first. split; reflexivity.
    + intro H. apply Z.ltb_ge in H. rewrite H. reflexivity.
  - apply Z.ltb_ge in E0. split; [|split; [|reflexivity]].
    + intro H. lia.
    + intros _. reflexivity.
Qed.

(** C2. With [fail_fast=True] the loop pulls the bare producer of the
    observed stream: the first error the stream raises, whatever its
    class, ends the iteration and is raised by [iterate]; what follows it
    is never pulled, and no error is counted, sampled or logged. *)
Theorem iterate_fail_fast_raises_first_error {lib : ExecLib}
  (self : Streamable.Stream) (collect_limit raise_if_more_errors_than : Z)
  (pre post : Iterator) (e : PyExc) :
  0 <= collect_limit -> 0 <= raise_if_more_errors_than ->
  Streamable.__iter__ self = Ok (pre ++ Err e :: post) ->
  errors pre = [] ->
  let run := Streamable.iterate self collect_limit raise_if_more_errors_than
               true in
  Streamable.outcome run = Err e
  /\ Streamable.unpulled run = post
  /\ Streamable.final_errors_count run = 0
  /\ Streamable.final_error_samples run = []
  /\ Streamable.error_log run = None.
Proof.
  intros Hc Hr Hup Hpre run. subst run.
  rewrite (iterate_fail_fast self _ _ _ Hc Hr Hup).
  rewrite fail_fast_run_error by assumption.
  repeat split.
Qed.

(** C7. Whenever [iterate] returns a list, the stream has been pulled
    to its end, every error it raised has been counted, and the list is
    exactly the first [collect_limit] yielded elements; with
    [collect_limit=0] it is the empty list.  And [iterate] does return
    whenever the errors, all instances of [Exception], are no more than
    [raise_if_more_errors_than] and [fail_fast] is off. *)
Theorem iterate_returns_first_collect_limit_elements {lib : ExecLib}
  (self : Streamable.Stream) (collect_limit raise_if_more_errors_than : Z)
  (fail_fast : bool) (up : Iterator) :
  Streamable.__iter__ self = Ok up ->
  let run := Streamable.iterate self collect_limit raise_if_more_errors_than
               fail_fast in
  (forall l, Streamable.outcome run = Ok l ->
     l = firstn (Z.to_nat collect_limit) (elements up)
     /\ (collect_limit = 0 -> l = [])
     /\ Streamable.unpulled run = []
     /\ Streamable.final_errors_count run
        = Z.of_nat (List.length (errors up)))
  /\ (0 <= collect_limit -> 0 <= raise_if_more_errors_than ->
      fail_fast = false ->
      Forall is_Exception (errors up) ->
      Z.of_nat (List.length (errors up)) <= raise_if_more_errors_than ->
      Streamable.outcome run
      = Ok (firstn (Z.to_nat collect_limit) (elements up))
      /\ Streamable.unpulled run = []).
Proof.
  intros Hup run. subst run. split.
  - intros l Hl.
    assert (Hargs : 0 <= collect_limit /\ 0 <= raise_if_more_errors_than).
    { destruct (Z_lt_ge_dec collect_limit 0) as [Hc|Hc];
        [|destruct (Z_lt_ge_dec raise_if_more_errors_than 0) as [Hr|Hr]];
        try lia.
      - destruct (iterate_rejects_negative self collect_limit
                    raise_if_more_errors_than fail_fast (or_introl Hc))
          as (e & He & _).
        rewrite He in Hl. discriminate.
      - destruct (iterate_rejects_negative self collect_limit
                    raise_if_more_errors_than fail_fast (or_intror Hr))
          as (e & He & _).
        rewrite He in Hl. discriminate. }
    destruct Hargs as [Hc Hr].
    assert (Hgoal :
      l = firstn (Z.to_nat collect_limit) (elements up)
      /\ Streamable.unpulled
           (Streamable.iterate self collect_limit raise_if_more_errors_than
              fail_fast) = []
      /\ Streamable.final_errors_count
           (Streamable.iterate self collect_limit raise_if_more_errors_than
              fail_fast) = Z.of_nat (List.length (errors up))).
    { destruct fail_fast.
      - rewrite (iterate_fail_fast self _ _ up Hc Hr Hup) in *.
        destruct (fail_fast_run collect_limit up []) as [[exc rest] out] eqn:E.
        destruct exc as [e|]; [discriminate|].
        pose proof (proj1 (fail_fast_run_completed _ _ _ _ _ _ E) eq_refl)
          as Hnone.
        rewrite (fail_fast_run_no_error _ _ _ Hnone) in E.
        inversion E; subst. rewrite Hnone.
        unfold Streamable.after_loop in *. simpl in *.
        inversion Hl; subst. rewrite collect_firstn. simpl app.
        rewrite Nat.sub_0_r. auto.
      - rewrite (iterate_deferred self _ _ up Hc Hr Hup) in *.
        destruct (deferred_run collect_limit up no_locals [])
          as [[exc [rest l0]] out] eqn:E.
        destruct exc as [e|]; [discriminate|].
        apply deferred_run_completed in E as (-> & -> & -> & _).
        unfold Streamable.after_loop in *.
        rewrite register_all_count in *. simpl Streamable.errors_count in *.
        rewrite collect_firstn in *. simpl app in *.
        rewrite Nat.sub_0_r in *.
        destruct (0 <? 0 + Z.of_nat (List.length (errors up)));
          cbn [Streamable.outcome Streamable.unpulled
               Streamable.final_errors_count] in *.
        + destruct (raise_if_more_errors_than
                    <? 0 + Z.of_nat (List.length (errors up))).
          * destruct (Streamable.error_samples _); discriminate.
          * inversion Hl; subst. repeat split; lia.
        + inversion Hl; subst. repeat split; lia. }
    destruct Hgoal as (H1 & H2 & H3). repeat split; auto.
    intro H0. subst. reflexivity.
  - intros Hc Hr -> Hex Hle.
    rewrite (iterate_deferred self _ _ up Hc Hr Hup).
    pose proof (deferred_run_completes collect_limit up no_locals [] Hex)
      as Hn.
    destruct (deferred_run collect_limit up no_locals [])
      as [[exc [rest l0]] out] eqn:E.
    simpl in Hn; subst exc.
    apply deferred_run_completed in E as (-> & -> & -> & _).
    unfold Streamable.after_loop. rewrite register_all_count.
    simpl Streamable.errors_count. rewrite collect_firstn. simpl app.
    rewrite Nat.sub_0_r.
    destruct (0 <? 0 + Z.of_nat (List.length (errors up)));
      cbn [Streamable.outcome Streamable.unpulled]; [|auto].
    replace (raise_if_more_errors_than
             <? 0 + Z.of_nat (List.length (errors up))) with false
      by (symmetry; apply Z.ltb_ge; lia).
    auto.
Qed.

(** C9. Whenever [iterate] reaches the branch taken for a positive
    [errors_count] (the one that writes the error log), the list of
    samples is not empty, so [error_samples[0]] is its head and the
    re-raise cannot fail with an index error: the first counted error is
    always appended, the capacity 8 being at least 1. *)
Theorem error_samples_nonempty_when_errors_counted {lib : ExecLib}
  (self : Streamable.Stream) (collect_limit raise_if_more_errors_than : Z)
  (fail_fast : bool) (up : Iterator) (m : Z) (samples : list PyExc) :
  Streamable.__iter__ self = Ok up ->
  let run := Streamable.iterate self collect_limit raise_if_more_errors_than
               fail_fast in
  Streamable.error_log run = Some (m, samples) ->
  fail_fast = false
  /\ 0 < Streamable.final_errors_count run
  /\ samples = Streamable.final_error_samples run
  /\ exists first rest,
       samples = first :: rest
       /\ (raise_if_more_errors_than < Streamable.final_errors_count run ->
             Streamable.outcome run = Err first)
       /\ (Streamable.final_errors_count run <= raise_if_more_errors_than ->
             exists l, Streamable.outcome run = Ok l).
Proof.
  intros Hup run Hlog. subst run.
  assert (Hargs : 0 <= collect_limit /\ 0 <= raise_if_more_errors_than).
  { destruct (Z_lt_ge_dec collect_limit 0) as [Hc|Hc];
      [|destruct (Z_lt_ge_dec raise_if_more_errors_than 0) as [Hr|Hr]];
      try lia.
    - destruct (iterate_rejects_negative self collect_limit
                  raise_if_more_errors_than fail_fast (or_introl Hc))
        as (e & He & _).
      rewrite He in Hlog. discriminate.
    - destruct (iterate_rejects_negative self collect_limit
                  raise_if_more_errors_than fail_fast (or_intror Hr))
        as (e & He & _).
      rewrite He in Hlog. discriminate. }
  destruct Hargs as [Hc Hr].
  destruct fail_fast.
  - exfalso. rewrite (iterate_fail_fast self _ _ up Hc Hr Hup) in Hlog.
    destruct (fail_fast_run collect_limit up []) as [[[e|] rest] out];
      discriminate.
  - rewrite (iterate_deferred self _ _ up Hc Hr Hup) in *.
    pose proof (deferred_run_sampled collect_limit up no_locals []
                  sampled_no_locals) as [_ Hs].
    destruct (deferred_run collect_limit up no_locals [])
      as [[[e|] [rest l]] out]; [discriminate|].
    simpl in Hs. unfold Streamable.after_loop in *.
    destruct (0 <? Streamable.errors_count l) eqn:E0; [|discriminate].
    apply Z.ltb_lt in E0. specialize (Hs E0).
    cbn [Streamable.outcome Streamable.final_errors_count
         Streamable.final_error_samples Streamable.error_log] in *.
    inversion Hlog; subst.
    split; [reflexivity|]. split; [exact E0|]. split; [reflexivity|].
    destruct (Streamable.error_samples l) as [|first rest0];
      [congruence|].
    exists first, rest0. split; [reflexivity|]. split.
    + intro H. apply Z.ltb_lt in H. rewrite H. reflexivity.
    + intro H. apply Z.ltb_ge in H. rewrite H. eauto.
Qed.

Lemma iterate_defers_errors_witness :
  Streamable.unpulled (@Streamable.iterate passthrough_lib faulty_stream 2 1 false) = []
  /\ Streamable.final_errors_count
       (@Streamable.iterate passthrough_lib faulty_stream 2 1 false) = 2
  /\ Streamable.final_error_samples
       (@Streamable.iterate passthrough_lib faulty_stream 2 1 false)
     = [zero_division; bad_value]
  /\ Streamable.outcome (@Streamable.iterate passthrough_lib faulty_stream 2 1 false)
     = Err zero_division
  /\ Streamable.outcome (@Streamable.iterate passthrough_lib faulty_stream 2 2 false)
     = Ok [OInt 1; OInt 2].
Proof.
  pose proof (@iterate_defers_errors passthrough_lib faulty_stream 2 1
                faulty_script ltac:(lia) ltac:(lia) eq_refl
                ltac:(repeat constructor)) as H1.
  pose proof (@iterate_defers_errors passthrough_lib faulty_stream 2 2
                faulty_script ltac:(lia) ltac:(lia) eq_refl
                ltac:(repeat constructor)) as H2.
  cbv zeta in H1, H2.
  destruct H1 as (_ & Hu & Hn & Hs & _ & Hraise & _ & _).
  destruct H2 as (_ & _ & _ & _ & _ & _ & Hret & _).
  split; [exact Hu|]. split; [exact Hn|]. split; [exact Hs|]. split.
  - destruct Hraise as (first & Hfirst & Hout); [simpl; lia|].
    inversion Hfirst; subst. exact Hout.
  - apply Hret. simpl. lia.
Defined.

Lemma iterate_fail_fast_raises_first_error_witness :
  Streamable.outcome (@Streamable.iterate passthrough_lib faulty_stream 2 1 true)
  = Err zero_division
  /\ Streamable.unpulled (@Streamable.iterate passthrough_lib faulty_stream 2 1 true)
     = [Ok (OInt 2); Err bad_value; Ok (OInt 3)]
  /\ Streamable.final_errors_count
       (@Streamable.iterate passthrough_lib faulty_stream 2 1 true) = 0
  /\ Streamable.final_error_samples
       (@Streamable.iterate passthrough_lib faulty_stream 2 1 true) = []
  /\ Streamable.error_log
       (@Streamable.iterate passthrough_lib faulty_stream 2 1 true) = None.
Proof.
  apply (@iterate_fail_fast_raises_first_error passthrough_lib faulty_stream
           2 1 [Ok (OInt 1)] [Ok (OInt 2); Err bad_value; Ok (OInt 3)]
           zero_division).
  - lia.
  - lia.
  - reflexivity.
  - reflexivity.
Defined.

Lemma iterate_returns_first_collect_limit_elements_witness :
  Streamable.outcome (@Streamable.iterate passthrough_lib faulty_stream 0 2 false)
  = Ok []
  /\ Streamable.unpulled (@Streamable.iterate passthrough_lib faulty_stream 0 2 false)
     = []
  /\ Streamable.final_errors_count
       (@Streamable.iterate passthrough_lib faulty_stream 0 2 false) = 2.
Proof.
  destruct (@iterate_returns_first_collect_limit_elements passthrough_lib
              faulty_stream 0 2 false faulty_script eq_refl) as [Hany Hret].
  destruct Hret as [Hout Hun];
    [lia | lia | reflexivity | repeat constructor
     | simpl; lia |].
  destruct (Hany [] Hout) as (_ & _ & _ & Hcount).
  split; [exact Hout|]. split; [exact Hun|]. exact Hcount.
Defined.

Lemma error_samples_nonempty_when_errors_counted_witness :
  0 < Streamable.final_errors_count
        (@Streamable.iterate passthrough_lib faulty_stream 2 1 false)
  /\ exists first rest,
       [zero_division; bad_value] = first :: rest
       /\ (1 < Streamable.final_errors_count
                 (@Streamable.iterate passthrough_lib faulty_stream 2 1 false) ->
           Streamable.outcome
             (@Streamable.iterate passthrough_lib faulty_stream 2 1 false)
           = Err first).
Proof.
  destruct (@error_samples_nonempty_when_errors_counted passthrough_lib
              faulty_stream 2 1 false faulty_script 8
              [zero_division; bad_value] eq_refl eq_refl)
    as (_ & Hpos & _ & first & rest & Heq & Hraise & _).
  split; [exact Hpos|]. exists first, rest. split; [exact Heq | exact Hraise].
Defined.

(* ===================================================================== *)
(** ** Further properties of the builders                                 *)
(* ===================================================================== *)

Lemma lt_int_false (x : PyObj) (k : Z) :
  lt_int x k = Ok false <-> num_ge k x \/ is_nan x.
Proof.
  unfold is_nan. split.
  - destruct x as [ | b | z | [q| | | ] | s | xs | sc | nm c ]; simpl; intro H;
      try discriminate; inversion H as [H1].
    + left. constructor. apply Z.ltb_ge; assumption.
    + left. constructor. apply Z.ltb_ge; assumption.
    + left. constructor. unfold Qlt_bool in H1. apply negb_false_iff in H1.
      apply Qle_bool_iff; assumption.
    + left. constructor.
    + right. reflexivity.
  - intros [H | ->]; [apply lt_int_false_of_ge; assumption | reflexivity].
Qed.

Lemma le_int_false (x : PyObj) (k : Z) :
  le_int x k = Ok false <-> num_gt k x \/ is_nan x.
Proof.
  unfold is_nan. split.
  - destruct x as [ | b | z | [q| | | ] | s | xs | sc | nm c ]; simpl; intro H;
      try discriminate; inversion H as [H1].
    + left. constructor. apply Z.leb_gt; assumption.
    + left. constructor. apply Z.leb_gt; assumption.
    + left. constructor. apply Qnot_le_lt. intro Hle.
      apply Qle_bool_iff in Hle. congruence.
    + left. constructor.
    + right. reflexivity.
  - intros [[b H | z H | q H | ] | ->]; simpl; f_equal.
    + apply Z.leb_gt; assumption.
    + apply Z.leb_gt; assumption.
    + destruct (Qle_bool q (inject_Z k)) eqn:E; auto.
      apply Qle_bool_iff in E. exfalso. eapply Qlt_not_le; eauto.
Qed.

(** X1. [Stream.batch] returns a plan exactly when [size] is a number
    that is not below 1 and [seconds] is a number that is not at or below
    0, where a NaN passes either test; the plan is then the Batch node
    with the two values as given.  The default [seconds], infinity, is
    accepted with every valid [size]. *)
Theorem batch_accepts_exactly (self : Streamable.Stream)
  (size seconds : PyObj) :
  ((exists stream, Streamable.batch self size seconds = Ok stream)
   <-> (num_ge 1 size \/ is_nan size) /\ (num_gt 0 seconds \/ is_nan seconds))
  /\ (forall stream, Streamable.batch self size seconds = Ok stream ->
        stream = Streamable.BatchStream self size seconds)
  /\ (num_ge 1 size ->
        Streamable.batch self size (OFloat PosInf)
        = Ok (Streamable.BatchStream self size (OFloat PosInf))).
Proof.
  unfold Streamable.batch. split; [|split].
  - rewrite <- lt_int_false, <- le_int_false. split.
    + intros [stream H].
      destruct (lt_int size 1) as [[|]|e]; try discriminate.
      destruct (le_int seconds 0) as [[|]|e]; try discriminate. auto.
    + intros [-> ->]. eexists; reflexivity.
  - intros stream H.
    destruct (lt_int size 1) as [[|]|e]; try discriminate.
    destruct (le_int seconds 0) as [[|]|e]; try discriminate.
    simpl in H. congruence.
  - intro H. rewrite (lt_int_false_of_ge _ _ H). reflexivity.
Qed.

Lemma batch_accepts_exactly_witness :
  (exists stream,
     Streamable.batch a_stream (OInt 3) (OFloat NaN) = Ok stream)
  /\ Streamable.batch a_stream (OInt 3) (OFloat PosInf)
     = Ok (Streamable.BatchStream a_stream (OInt 3) (OFloat PosInf)).
Proof.
  destruct (batch_accepts_exactly a_stream (OInt 3) (OFloat NaN))
    as ([_ H1] & _ & _).
  destruct (batch_accepts_exactly a_stream (OInt 3) (OFloat PosInf))
    as (_ & _ & H3).
  split.
  - apply H1. split; [left; constructor; lia | right; reflexivity].
  - apply H3. constructor. lia.
Defined.

(** X2. [Stream.slow] returns a plan exactly when [frequency] is a
    number above 0 or a NaN, and raises a [ValueError] exactly when it is
    a number at or below 0; for anything that is not a number the
    comparison itself raises a [TypeError]. *)
Theorem slow_accepts_exactly (self : Streamable.Stream) (frequency : PyObj) :
  (Streamable.slow self frequency = Ok (Streamable.SlowStream self frequency)
   <-> num_gt 0 frequency \/ is_nan frequency)
  /\ (raises (Streamable.slow self frequency) ValueError
      <-> num_le 0 frequency)
  /\ (raises (Streamable.slow self frequency) TypeError
      <-> exists e, le_int frequency 0 = Err e).
Proof.
  unfold Streamable.slow, raises. split; [|split].
  - rewrite <- le_int_false. split.
    + intro H. destruct (le_int frequency 0) as [[|]|e]; try discriminate.
      reflexivity.
    + intros ->. reflexivity.
  - rewrite <- le_int_true. split.
    + intros (e & H & Hc).
      destruct (le_int frequency 0) as [[|]|e'] eqn:E; try discriminate; auto.
      exfalso. simpl in H. inversion H; subst.
      destruct frequency as [ | b | z | [q| | | ] | s | xs | sc | nm f ];
        simpl in E; try discriminate; inversion E; subst; discriminate.
    + intros ->. eexists; split; reflexivity.
  - split.
    + intros (e & H & Hc).
      destruct (le_int frequency 0) as [[|]|e'] eqn:E; eauto.
      * simpl in H. inversion H; subst. discriminate.
      * discriminate.
    + intros [e H]. rewrite H. exists e. split; [reflexivity|].
      destruct frequency as [ | b | z | [q| | | ] | s | xs | sc | nm f ];
        simpl in H; try discriminate; inversion H; subst; reflexivity.
Qed.

Lemma slow_accepts_exactly_witness :
  Streamable.slow a_stream (OFloat (Finite (1 # 2)))
  = Ok (Streamable.SlowStream a_stream (OFloat (Finite (1 # 2))))
  /\ raises (Streamable.slow a_stream (OInt 0)) ValueError
  /\ raises (Streamable.slow a_stream (OStr "fast")) TypeError.
Proof.
  split; [|split].
  - apply (slow_accepts_exactly a_stream (OFloat (Finite (1 # 2)))).
    left. constructor. reflexivity.
  - apply (slow_accepts_exactly a_stream (OInt 0)). constructor. lia.
  - apply (slow_accepts_exactly a_stream (OStr "fast")).
    eexists. reflexivity.
Defined.

(** X3. [Pipe.sanitize_n_threads] decides in this order: a value that
    is not an instance of [int] raises a [TypeError] whatever its size
    (0.5 and NaN included); an instance of [int] below 1 (0, negative
    ints, [False]) raises a [ValueError]; every other instance of [int] is
    accepted.  On ints the [Stream] builder's check decides the same. *)
Theorem sanitize_n_threads_decision (n : PyObj) :
  (raises (Kioss.sanitize_n_threads n) TypeError <-> isinstance_int n = false)
  /\ (raises (Kioss.sanitize_n_threads n) ValueError
      <-> isinstance_int n = true /\ num_lt 1 n)
  /\ (Kioss.sanitize_n_threads n = Ok tt
      <-> isinstance_int n = true /\ num_ge 1 n)
  /\ (isinstance_int n = true ->
      (Kioss.sanitize_n_threads n = Ok tt
       <-> Streamable._validate_concurrency n = Ok tt)).
Proof.
  unfold raises, Kioss.sanitize_n_threads, Streamable._validate_concurrency.
  destruct n as [ | b | z | f | s | xs | sc | nm c ]; simpl;
    try (split; [|split; [|split]];
         [ split; [reflexivity | intros _; eexists; split; reflexivity]
         | split; [intros (e & H & Hc); inversion H; subst; discriminate
                  | intros [H _]; discriminate]
         | split; [discriminate | intros [H _]; discriminate]
         | discriminate ]).
  - (* bool *)
    split; [|split; [|split]].
    + split; [|discriminate]. intros (e & H & Hc).
      destruct (Z_of_bool b <? 1); inversion H; subst; discriminate.
    + split.
      * intros (e & H & _). split; auto. constructor.
        destruct (Z_of_bool b <? 1) eqn:E; [|discriminate].
        apply Z.ltb_lt; assumption.
      * intros [_ H]. inversion H as [? H1| | |]; subst.
        apply Z.ltb_lt in H1. rewrite H1. eexists; split; reflexivity.
    + split.
      * intro H. split; auto. constructor.
        destruct (Z_of_bool b <? 1) eqn:E; [discriminate|].
        apply Z.ltb_ge; assumption.
      * intros [_ H]. inversion H as [? H1| | |]; subst.
        apply Z.ltb_ge in H1. rewrite H1. reflexivity.
    + intros _. destruct (Z_of_bool b <? 1); simpl;
        split; intro H; (discriminate || reflexivity).
  - (* int *)
    split; [|split; [|split]].
    + split; [|discriminate]. intros (e & H & Hc).
      destruct (z <? 1); inversion H; subst; discriminate.
    + split.
      * intros (e & H & _). split; auto. constructor.
        destruct (z <? 1) eqn:E; [|discriminate].
        apply Z.ltb_lt; assumption.
      * intros [_ H]. inversion H as [|? H1| |]; subst.
        apply Z.ltb_lt in H1. rewrite H1. eexists; split; reflexivity.
    + split.
      * intro H. split; auto. constructor.
        destruct (z <? 1) eqn:E; [discriminate|].
        apply Z.ltb_ge; assumption.
      * intros [_ H]. inversion H as [|? H1| |]; subst.
        apply Z.ltb_ge in H1. rewrite H1. reflexivity.
    + intros _. destruct (z <? 1); simpl;
        split; intro H; (discriminate || reflexivity).
Qed.

Lemma sanitize_n_threads_decision_witness :
  raises (Kioss.sanitize_n_threads (OFloat (Finite (1 # 2)))) TypeError
  /\ raises (Kioss.sanitize_n_threads (OBool false)) ValueError
  /\ Kioss.sanitize_n_threads (OInt 4) = Ok tt
  /\ Streamable._validate_concurrency (OInt 4) = Ok tt.
Proof.
  destruct (sanitize_n_threads_decision (OFloat (Finite (1 # 2))))
    as ([_ H1] & _).
  destruct (sanitize_n_threads_decision (OBool false)) as (_ & [_ H2] & _).
  destruct (sanitize_n_threads_decision (OInt 4)) as (_ & _ & [_ H3] & H4).
  assert (Hok : Kioss.sanitize_n_threads (OInt 4) = Ok tt).
  { apply H3. split; [reflexivity | constructor; lia]. }
  split; [apply H1; reflexivity|].
  split; [apply H2; split; [reflexivity | constructor; simpl; lia]|].
  split; [exact Hok|].
  apply (H4 eq_refl). exact Hok.
Defined.

(* ===================================================================== *)
(** ** Further properties of the kioss visitor                            *)
(* ===================================================================== *)

Lemma builtin_filter_total (b : PyObj -> bool) (predicate : PyObj -> res bool)
  (it : Iterator) :
  (forall x, predicate x = Ok (b x)) ->
  elements (builtin_filter predicate it) = List.filter b (elements it)
  /\ errors (builtin_filter predicate it) = errors it.
Proof.
  intro Hp. induction it as [|[x|e] it [IH1 IH2]]; simpl.
  - auto.
  - rewrite Hp. destruct (b x); simpl; rewrite ?IH1; auto.
  - rewrite IH1, IH2. auto.
Qed.

(** X4. For a predicate that never raises, the producer compiled from
    [pipe.filter(predicate)] yields exactly the upstream elements that
    satisfy the predicate, in upstream order, and raises exactly the
    upstream errors, in order. *)
Theorem filter_keeps_satisfying_elements {lib : ExecLib}
  (upstream : Kioss.Pipe) (predicate : PyObj -> res bool)
  (b : PyObj -> bool) (up : Iterator) :
  accept upstream = Ok up ->
  (forall x, predicate x = Ok (b x)) ->
  exists it,
    accept (Kioss.filter upstream predicate) = Ok it
    /\ elements it = List.filter b (elements up)
    /\ errors it = errors up.
Proof.
  intros Hup Hp. exists (builtin_filter predicate up). split.
  - simpl. unfold visitFilterPipe. rewrite Hup. reflexivity.
  - apply builtin_filter_total; assumption.
Qed.

Lemma builtin_filter_fusion (q p : PyObj -> res bool) (it : Iterator) :
  builtin_filter p (builtin_filter q it) = builtin_filter (both q p) it.
Proof.
  induction it as [|[x|e] it IH]; simpl.
  - reflexivity.
  - unfold both at 1. destruct (q x) as [[|]|e]; simpl.
    + destruct (p x) as [[|]|e]; rewrite IH; reflexivity.
    + exact IH.
    + rewrite IH. reflexivity.
  - rewrite IH. reflexivity.
Qed.

(** X5. Two filters in a row compile to the producer of one filter with
    the short-circuit conjunction of the two predicates, also when a
    predicate raises and when the upstream cannot be compiled: the second
    predicate is called on the elements the first one kept and on no
    other. *)
Theorem filter_of_filter {lib : ExecLib} (upstream : Kioss.Pipe)
  (q p : PyObj -> res bool) :
  accept (Kioss.filter (Kioss.filter upstream q) p)
  = accept (Kioss.filter upstream (both q p)).
Proof.
  simpl. unfold visitFilterPipe. simpl. unfold visitFilterPipe.
  destruct (accept upstream) as [up|e]; simpl; [|reflexivity].
  rewrite builtin_filter_fusion. reflexivity.
Qed.

Lemma builtin_map_fusion (f g : PyObj -> res PyObj) (it : Iterator) :
  builtin_map g (builtin_map f it) = builtin_map (then_apply f g) it.
Proof.
  unfold builtin_map. rewrite List.map_map. apply List.map_ext.
  intros [x|e]; reflexivity.
Qed.

(** X6. With [n_threads == 1] (the int 1, [True] or the float 1.0), two
    maps in a row compile to the producer of one map with the composed
    function: the second function is called on the results of the first
    only, and an error of the first function or of the upstream stays at
    its place. *)
Theorem map_of_map {lib : ExecLib} (upstream : Kioss.Pipe)
  (f g : PyObj -> res PyObj) (n m k : PyObj) :
  eq_int n 1 = true -> eq_int m 1 = true -> eq_int k 1 = true ->
  accept (Kioss.MapPipe (Kioss.MapPipe upstream f n) g m)
  = accept (Kioss.MapPipe upstream (then_apply f g) k).
Proof.
  intros Hn Hm Hk. simpl. unfold visitMapPipe. simpl. unfold visitMapPipe.
  rewrite Hn, Hm, Hk.
  destruct (accept upstream) as [up|e]; simpl; [|reflexivity].
  rewrite builtin_map_fusion. reflexivity.
Qed.

Lemma map_of_map_witness :
  @accept passthrough_lib
    (Kioss.MapPipe (Kioss.MapPipe a_pipe square (OInt 1)) square (OBool true))
  = @accept passthrough_lib
      (Kioss.MapPipe a_pipe (then_apply square square)
         (OFloat (Finite (1 # 1)))).
Proof.
  apply (@map_of_map passthrough_lib a_pipe square square
           (OInt 1) (OBool true) (OFloat (Finite (1 # 1))));
    reflexivity.
Defined.

Lemma filter_keeps_satisfying_elements_witness :
  exists it,
    @accept passthrough_lib
      (Kioss.filter a_pipe (fun x => Ok (eq_int x 1))) = Ok it
    /\ elements it = List.filter (fun x => eq_int x 1) [OInt 1; OInt 2]
    /\ errors it = [].
Proof.
  apply (@filter_keeps_satisfying_elements passthrough_lib a_pipe
           (fun x => Ok (eq_int x 1)) (fun x => eq_int x 1)
           [Ok (OInt 1); Ok (OInt 2)]).
  - reflexivity.
  - intro x. reflexivity.
Defined.


Lemma iter_all_app {A : Type} (iter : A -> res Iterator) (xs ys : list A) :
  iter_all iter (xs ++ ys)
  = (its <- iter_all iter xs ;;
     more <- iter_all iter ys ;;
     Ok (its ++ more)).
Proof.
  induction xs as [|x xs IH]; simpl.
  - destruct (iter_all iter ys); reflexivity.
  - destruct (iter x) as [it|e]; simpl; [|reflexivity].
    rewrite IH. destruct (iter_all iter xs) as [its|e]; simpl; [|reflexivity].
    destruct (iter_all iter ys); reflexivity.
Qed.

(** X7. For any number of chained pipes, the producer compiled from
    [upstream.chain] over [others] yields the script of [upstream] followed by
    the scripts of the others in the order given; with no other pipe it is
    the producer of [upstream] alone. *)
Theorem chain_of_any_number {lib : ExecLib} (upstream : Kioss.Pipe)
  (others : list Kioss.Pipe) (up : Iterator) (its : list Iterator) :
  accept upstream = Ok up ->
  iter_all accept others = Ok its ->
  accept (Kioss.chain upstream others) = Ok (up ++ List.concat its)
  /\ accept (Kioss.chain upstream []) = Ok up.
Proof.
  intros Hup Hits. simpl. unfold visitChainPipe. rewrite Hup. simpl.
  rewrite Hits. simpl. rewrite !itertools_chain_concat. simpl.
  rewrite app_nil_r. auto.
Qed.

Lemma chain_of_any_number_witness :
  @accept passthrough_lib
    (Kioss.chain a_pipe
       [Kioss.SourcePipe c_source; a_pipe; Kioss.SourcePipe c_source; a_pipe])
  = Ok ([Ok (OInt 1); Ok (OInt 2)]
        ++ List.concat [[Ok (OInt 5)]; [Ok (OInt 1); Ok (OInt 2)];
                        [Ok (OInt 5)]; [Ok (OInt 1); Ok (OInt 2)]])
  /\ @accept passthrough_lib (Kioss.chain a_pipe [])
     = Ok [Ok (OInt 1); Ok (OInt 2)].
Proof.
  apply (@chain_of_any_number passthrough_lib a_pipe
           [Kioss.SourcePipe c_source; a_pipe; Kioss.SourcePipe c_source;
            a_pipe]
           [Ok (OInt 1); Ok (OInt 2)]
           [[Ok (OInt 5)]; [Ok (OInt 1); Ok (OInt 2)];
            [Ok (OInt 5)]; [Ok (OInt 1); Ok (OInt 2)]]);
    reflexivity.
Defined.

(** X8. [+] on pipes is associative up to the compiled producer:
    [(a + b) + c], [a + (b + c)] and [a.chain(b, c)] compile to the same
    producer, or fail to compile with the same error. *)
Theorem add_is_associative {lib : ExecLib} (a b c : Kioss.Pipe) :
  accept (PipeMethods.__add__ (PipeMethods.__add__ a b) c)
  = accept (Kioss.chain a [b; c])
  /\ accept (PipeMethods.__add__ a (PipeMethods.__add__ b c))
     = accept (Kioss.chain a [b; c]).
Proof.
  unfold PipeMethods.__add__, Kioss.chain. simpl. unfold visitChainPipe.
  simpl. unfold visitChainPipe. simpl.
  destruct (accept a) as [ia|e]; simpl; [|auto].
  destruct (accept b) as [ib|e]; simpl; [|auto].
  destruct (accept c) as [ic|e]; simpl; [|auto].
  rewrite !itertools_chain_concat. simpl.
  rewrite !app_nil_r, <- ?app_assoc. auto.
Qed.

(** X9. The visitor compiles every chained pipe before it returns the
    chaining producer: if the upstream and the first chained pipes compile
    and a later chained pipe fails to compile, compiling the chain fails
    with that error, so no element of any pipe of the chain is yielded. *)
Theorem chain_compiles_eagerly {lib : ExecLib} (upstream bad : Kioss.Pipe)
  (before after : list Kioss.Pipe) (up : Iterator) (its : list Iterator)
  (e : PyExc) :
  accept upstream = Ok up ->
  iter_all accept before = Ok its ->
  accept bad = Err e ->
  accept (Kioss.chain upstream (before ++ bad :: after)) = Err e.
Proof.
  intros Hup Hits Hbad. simpl. unfold visitChainPipe. rewrite Hup. simpl.
  rewrite iter_all_app, Hits. simpl. rewrite Hbad. reflexivity.
Qed.

Lemma chain_compiles_eagerly_witness :
  exists e,
    @accept passthrough_lib
      (Kioss.chain a_pipe
         ([Kioss.SourcePipe c_source] ++ Kioss.SourcePipe list_source
          :: [a_pipe])) = Err e
    /\ exc_class e = TypeError.
Proof.
  eexists. split.
  - apply (@chain_compiles_eagerly passthrough_lib a_pipe
             (Kioss.SourcePipe list_source) [Kioss.SourcePipe c_source]
             [a_pipe] [Ok (OInt 1); Ok (OInt 2)] [[Ok (OInt 5)]]);
      reflexivity.
  - reflexivity.
Defined.

(** X10. An error raised while the upstream is compiled (the source type
    check, a factory that raises) is raised by the compilation of every
    operator placed above it: Map, Flatten, Filter, Batch, Slow, Log,
    Chain, and also Catch, whatever classes and predicate it was given; a
    Catch node does not intercept it. *)
Theorem compile_error_passes_every_operator {lib : ExecLib}
  (upstream : Kioss.Pipe) (e : PyExc) :
  accept upstream = Err e ->
  (forall func n, accept (Kioss.MapPipe upstream func n) = Err e)
  /\ (forall n, accept (Kioss.FlattenPipe upstream n) = Err e)
  /\ (forall predicate, accept (Kioss.filter upstream predicate) = Err e)
  /\ (forall size period, accept (Kioss.batch upstream size period) = Err e)
  /\ (forall freq, accept (Kioss.slow upstream freq) = Err e)
  /\ (forall what colored, accept (Kioss.log upstream what colored) = Err e)
  /\ (forall others, accept (Kioss.chain upstream others) = Err e)
  /\ (forall classes when,
        accept (Kioss.catch upstream classes when) = Err e).
Proof.
  intro H. repeat split; intros; simpl;
    unfold visitMapPipe, visitFlattenPipe, visitFilterPipe, visitBatchPipe,
      visitSlowPipe, visitLogPipe, visitChainPipe, visitCatchPipe;
    rewrite H; simpl; try reflexivity.
  - destruct (eq_int n 1); reflexivity.
  - destruct (eq_int n 1); reflexivity.
Qed.

Lemma compile_error_passes_every_operator_witness :
  exists e,
    @accept passthrough_lib
      (Kioss.catch (Kioss.SourcePipe list_source) [BaseException] None)
    = Err e
    /\ exc_class e = TypeError.
Proof.
  eexists. split.
  - apply (@compile_error_passes_every_operator passthrough_lib
             (Kioss.SourcePipe list_source) _ eq_refl).
  - reflexivity.
Defined.

(* ===================================================================== *)
(** ** Further properties of the drivers                                  *)
(* ===================================================================== *)

Lemma comprehension_unfold {S : Type} step size decr n_samples (s : S) i out :
  PipeMethods.comprehension step size decr n_samples s i out =
  match step s with
  | (StopIteration, s') => (None, s', out)
  | (Error e, s') => (Some e, s', out)
  | (Item x, s') =>
      PipeMethods.comprehension step size decr n_samples s' (Datatypes.S i)
        (PipeMethods.keep n_samples i out x)
  end.
Proof.
  rewrite PipeMethods.comprehension_equation_1. unfold inspect.
  assert (H : forall r (e : step s = r),
    PipeMethods.comprehension_unfold_clause_1 step size decr n_samples s
      (exist _ r e) i out =
    match r with
    | (StopIteration, s') => (None, s', out)
    | (Error e, s') => (Some e, s', out)
    | (Item x, s') =>
        PipeMethods.comprehension step size decr n_samples s' (Datatypes.S i)
          (PipeMethods.keep n_samples i out x)
    end) by (intros [[x|e0|] s'] e; reflexivity).
  apply H.
Qed.

Lemma collect_loop_run (n_samples : option Z) : forall up i out,
  PipeMethods.comprehension next (@List.length _) Streamable.next_decr
    n_samples up i out
  = collect_run n_samples up i out.
Proof.
  induction up as [|[x|e] up IH]; intros i out; rewrite comprehension_unfold.
  - reflexivity.
  - cbn. apply IH.
  - reflexivity.
Qed.

Lemma superintend_loop_run (m : Z) (n_samples : option Z) : forall up l i out,
  PipeMethods.comprehension
    (catching_step [Exception]
       (Some (Streamable.register_error_sample m)))
    catching_size
    (catching_step_decr [Exception]
       (Some (Streamable.register_error_sample m)))
    n_samples (up, l) i out
  = superintend_run m n_samples up l i out.
Proof.
  induction up as [|[x|e] up IH]; intros l i out; rewrite comprehension_unfold.
  - reflexivity.
  - cbn. apply IH.
  - cbn [catching_step fst snd catching_next superintend_run].
    destruct (isinstance_any e [Exception]); [|reflexivity].
    cbn. rewrite <- IH. rewrite (comprehension_unfold _ _ _ _ (up, _)).
    reflexivity.
Qed.

Lemma keep_step (n_samples : option Z) (i : nat) (out : list PyObj)
  (x : PyObj) (xs : list PyObj) :
  PipeMethods.keep n_samples i out x ++ kept n_samples (S i) xs
  = out ++ kept n_samples i (x :: xs).
Proof.
  unfold PipeMethods.keep, kept. destruct n_samples as [n|].
  - destruct (Z.of_nat i <? n) eqn:E.
    + apply Z.ltb_lt in E.
      replace (Z.to_nat n - i)%nat with (S (Z.to_nat n - S i))%nat by lia.
      simpl. rewrite <- app_assoc. reflexivity.
    + apply Z.ltb_ge in E.
      replace (Z.to_nat n - i)%nat with 0%nat by lia.
      replace (Z.to_nat n - S i)%nat with 0%nat by lia.
      reflexivity.
  - rewrite <- app_assoc. reflexivity.
Qed.

Lemma kept_nil (n_samples : option Z) (i : nat) : kept n_samples i [] = [].
Proof. destruct n_samples; simpl; rewrite ?firstn_nil; reflexivity. Qed.

Lemma collect_run_no_error (n_samples : option Z) : forall up i out,
  errors up = [] ->
  collect_run n_samples up i out
  = (None, [], out ++ kept n_samples i (elements up)).
Proof.
  induction up as [|[x|e] up IH]; intros i out H; simpl in *.
  - rewrite kept_nil, app_nil_r. reflexivity.
  - rewrite IH by assumption. rewrite keep_step. reflexivity.
  - discriminate.
Qed.

Lemma collect_run_error (n_samples : option Z) : forall pre e post i out,
  errors pre = [] ->
  exists out',
    collect_run n_samples (pre ++ Err e :: post) i out = (Some e, post, out').
Proof.
  induction pre as [|[x|e0] pre IH]; intros e post i out H; simpl in *.
  - eauto.
  - apply IH; assumption.
  - discriminate.
Qed.

(** X11. [Pipe.collect] pulls the whole pipe.  If the pipe raises no
    error it returns all the elements for [n_samples=None] and the first
    [n_samples] elements for an int (none for an int at or below 0); if
    the pipe raises an error, [collect] raises the first one, also when it
    comes after more than [n_samples] elements. *)
Theorem collect_returns_first_samples {lib : ExecLib}
  (slot : option PipeMethods.VisitorClass) (self : Kioss.Pipe)
  (n_samples : option Z) (up : Iterator) :
  PipeMethods.__iter__ slot self = Ok up ->
  (errors up = [] ->
     PipeMethods.collect slot self n_samples
     = Ok (match n_samples with
           | None => elements up
           | Some n => firstn (Z.to_nat n) (elements up)
           end))
  /\ (forall (pre : Iterator) (e : PyExc) (post : Iterator),
        up = pre ++ Err e :: post -> errors pre = [] ->
        PipeMethods.collect slot self n_samples = Err e).
Proof.
  intro Hup. unfold PipeMethods.collect. rewrite Hup. cbn [bind].
  rewrite collect_loop_run. split.
  - intro H. rewrite collect_run_no_error by assumption. simpl.
    destruct n_samples; simpl; rewrite ?Nat.sub_0_r; reflexivity.
  - intros pre e post -> Hpre.
    destruct (collect_run_error n_samples pre e post 0%nat [] Hpre)
      as [out' ->].
    reflexivity.
Qed.

Lemma collect_returns_first_samples_witness :
  @PipeMethods.collect passthrough_lib
    (Some PipeMethods.IteratorGeneratingVisitorClass) a_pipe (Some 1)
  = Ok [OInt 1]
  /\ @PipeMethods.collect passthrough_lib
       (Some PipeMethods.IteratorGeneratingVisitorClass) faulty_pipe (Some 1)
     = Err zero_division.
Proof.
  split.
  - apply (@collect_returns_first_samples passthrough_lib
             (Some PipeMethods.IteratorGeneratingVisitorClass) a_pipe
             (Some 1) [Ok (OInt 1); Ok (OInt 2)] eq_refl).
    reflexivity.
  - apply (@collect_returns_first_samples passthrough_lib
             (Some PipeMethods.IteratorGeneratingVisitorClass) faulty_pipe
             (Some 1) faulty_script eq_refl)
      with (pre := [Ok (OInt 1)])
           (post := [Ok (OInt 2); Err bad_value; Ok (OInt 3)]);
      reflexivity.
Defined.

Lemma register_all_with_count (m : Z) (errs : list PyExc) : forall l,
  Streamable.errors_count (register_all_with m errs l)
  = Streamable.errors_count l + Z.of_nat (List.length errs).
Proof.
  induction errs as [|e errs IH]; intro l.
  - simpl. lia.
  - unfold register_all_with in *. simpl fold_left. rewrite IH.
    unfold Streamable.register_error_sample. simpl snd.
    match goal with |- context [if ?c then _ else _] => destruct c end;
      simpl; lia.
Qed.

Lemma register_all_with_samples (m : Z) (errs : list PyExc) : forall l,
  Streamable.error_samples (register_all_with m errs l)
  = Streamable.error_samples l
    ++ firstn (Z.to_nat m - List.length (Streamable.error_samples l)) errs.
Proof.
  induction errs as [|e errs IH]; intro l.
  - simpl. rewrite firstn_nil, app_nil_r. reflexivity.
  - unfold register_all_with in *. simpl fold_left. rewrite IH.
    unfold Streamable.register_error_sample. simpl snd.
    match goal with |- context [if ?c then _ else _] =>
      destruct c eqn:E end; cbn [Streamable.error_samples] in *.
    + apply Z.ltb_lt in E.
      replace (Z.to_nat m - List.length (Streamable.error_samples l))%nat
        with (S (Z.to_nat m
                 - List.length (Streamable.error_samples l ++ [e])))%nat
        by (rewrite List.length_app; cbn [List.length]; lia).
      simpl. rewrite <- app_assoc. reflexivity.
    + apply Z.ltb_ge in E.
      replace (Z.to_nat m - List.length (Streamable.error_samples l))%nat
        with 0%nat by lia.
      reflexivity.
Qed.

Lemma superintend_run_completed (m : Z) (n_samples : option Z) :
  forall up l i out rest l' out',
  superintend_run m n_samples up l i out = (None, (rest, l'), out') ->
  rest = []
  /\ l' = register_all_with m (errors up) l
  /\ out' = out ++ kept n_samples i (elements up)
  /\ Forall is_Exception (errors up).
Proof.
  induction up as [|[x|e] up IH]; intros l i out rest l' out' H;
    cbn [superintend_run] in H.
  - inversion H; subst. simpl. rewrite kept_nil, app_nil_r.
    repeat split; constructor.
  - apply IH in H as (H1 & H2 & H3 & H4). simpl.
    rewrite <- keep_step. auto.
  - destruct (isinstance_any e [Exception]) eqn:E; [|discriminate].
    apply IH in H as (H1 & H2 & H3 & H4).
    repeat split; auto. constructor; auto.
    unfold is_Exception. unfold isinstance_any in E. cbn [existsb] in E.
    rewrite orb_false_r in E. exact E.
Qed.

Lemma superintend_run_completes (m : Z) (n_samples : option Z) :
  forall up l i out,
  Forall is_Exception (errors up) ->
  fst (fst (superintend_run m n_samples up l i out)) = None.
Proof.
  induction up as [|[x|e] up IH]; intros l i out H; cbn [superintend_run].
  - reflexivity.
  - apply IH; exact H.
  - simpl in H. inversion H as [|? ? He Hrest]; subst.
    assert (Hi : isinstance_any e [Exception] = true).
    { unfold isinstance_any. cbn [existsb]. rewrite orb_false_r.
      exact He. }
    rewrite Hi. apply IH; exact Hrest.
Qed.

Lemma superintend_unfold {lib : ExecLib}
  (slot : option PipeMethods.VisitorClass)
  (explainer : option PipeMethods.ExplainerClass) (self : Kioss.Pipe)
  (n_samples n_error_samples raise_if_more_errors_than : Z)
  (text : string) (up : Iterator) :
  PipeMethods.explain explainer (safe_plan self) false = Ok text ->
  PipeMethods.__iter__ slot (logged self) = Ok up ->
  PipeMethods.superintend slot explainer self n_samples n_error_samples
    raise_if_more_errors_than
  = match superintend_run n_error_samples (Some n_samples) up no_locals
            0%nat [] with
    | (Some e, (rest, l), _) => Streamable.aborted e l rest
    | (None, (rest, l), samples) =>
        Streamable.after_loop n_error_samples raise_if_more_errors_than
          l samples rest
    end.
Proof.
  intros Hex Hup. unfold PipeMethods.superintend. cbv zeta.
  fold (logged self). fold (safe_plan self). rewrite Hex.
  unfold PipeMethods.__iter__ in Hup. rewrite Hup.
  rewrite superintend_loop_run. reflexivity.
Qed.

(** X12. [Pipe.superintend] with [n_error_samples >= 1], on a pipe whose
    errors are instances of [Exception]: the pipe is pulled to its end,
    every error is counted, the first [n_error_samples] errors are the
    samples, the first error is raised when there are errors and more of
    them than [raise_if_more_errors_than], and otherwise the first
    [n_samples] elements are returned. *)
Theorem superintend_defers_errors {lib : ExecLib}
  (slot : option PipeMethods.VisitorClass)
  (explainer : option PipeMethods.ExplainerClass) (self : Kioss.Pipe)
  (n_samples n_error_samples raise_if_more_errors_than : Z)
  (text : string) (up : Iterator) :
  PipeMethods.explain explainer (safe_plan self) false = Ok text ->
  PipeMethods.__iter__ slot (logged self) = Ok up ->
  Forall is_Exception (errors up) ->
  1 <= n_error_samples ->
  let run := PipeMethods.superintend slot explainer self n_samples
               n_error_samples raise_if_more_errors_than in
  let count := Z.of_nat (List.length (errors up)) in
  Streamable.unpulled run = []
  /\ Streamable.final_errors_count run = count
  /\ Streamable.final_error_samples run
     = firstn (Z.to_nat n_error_samples) (errors up)
  /\ (0 < count -> raise_if_more_errors_than < count ->
        exists first, hd_error (errors up) = Some first
                      /\ Streamable.outcome run = Err first)
  /\ (count = 0 \/ count <= raise_if_more_errors_than ->
        Streamable.outcome run
        = Ok (firstn (Z.to_nat n_samples) (elements up))).
Proof.
  intros Hex Hup Hexc Hm run count. subst run.
  rewrite (superintend_unfold slot explainer self _ _ _ text up Hex Hup).
  pose proof (superintend_run_completes n_error_samples (Some n_samples)
                up no_locals 0%nat [] Hexc) as Hn.
  destruct (superintend_run n_error_samples (Some n_samples) up no_locals
              0%nat []) as [[exc [rest l]] out] eqn:E.
  simpl in Hn; subst exc.
  apply superintend_run_completed in E as (-> & -> & -> & _).
  unfold Streamable.after_loop.
  rewrite register_all_with_count, register_all_with_samples.
  cbn [no_locals Streamable.errors_count Streamable.error_samples
       List.length app kept].
  rewrite !Nat.sub_0_r. rewrite Z.add_0_l. fold count.
  destruct (0 <? count) eqn:E0;
    cbn [Streamable.outcome Streamable.unpulled
         Streamable.final_errors_count Streamable.final_error_samples];
    (split; [reflexivity|]); (split; [reflexivity|]);
    (split; [reflexivity|]).
  - split.
    + intros _ H. apply Z.ltb_lt in H. rewrite H.
      destruct (errors up) as [|first errs]; [simpl in count; lia|].
      exists first. split; [reflexivity|].
      replace (Z.to_nat n_error_samples) with (S (Z.to_nat n_error_samples - 1))
        by lia.
      reflexivity.
    + intros [H|H]; [apply Z.ltb_lt in E0; lia|].
      apply Z.ltb_ge in H. rewrite H. reflexivity.
  - apply Z.ltb_ge in E0. split; [intro; lia | intros _; reflexivity].
Qed.

Lemma superintend_defers_errors_witness :
  Streamable.final_errors_count
    (@PipeMethods.superintend passthrough_lib
       (Some PipeMethods.IteratorGeneratingVisitorClass)
       (Some silent_explainer) faulty_pipe 2 1 1) = 2
  /\ Streamable.final_error_samples
       (@PipeMethods.superintend passthrough_lib
          (Some PipeMethods.IteratorGeneratingVisitorClass)
          (Some silent_explainer) faulty_pipe 2 1 1) = [zero_division]
  /\ Streamable.outcome
       (@PipeMethods.superintend passthrough_lib
          (Some PipeMethods.IteratorGeneratingVisitorClass)
          (Some silent_explainer) faulty_pipe 2 1 1) = Err zero_division.
Proof.
  pose proof (@superintend_defers_errors passthrough_lib
                (Some PipeMethods.IteratorGeneratingVisitorClass)
                (Some silent_explainer) faulty_pipe 2 1 1 EmptyString
                faulty_script eq_refl eq_refl ltac:(repeat constructor)
                ltac:(lia)) as H.
  cbv zeta in H. destruct H as (_ & Hn & Hs & Hraise & _).
  split; [exact Hn|]. split; [exact Hs|].
  destruct Hraise as (first & Hfirst & Hout); [simpl; lia | simpl; lia |].
  inversion Hfirst; subst. exact Hout.
Defined.

(** X13. [Pipe.superintend] with [n_error_samples <= 0] keeps no sample:
    when the pipe raises errors, all instances of [Exception] and more of
    them than [raise_if_more_errors_than], [error_samples[0]] fails and
    [superintend] raises an [IndexError] in place of the first error. *)
Theorem superintend_without_samples_raises_IndexError {lib : ExecLib}
  (slot : option PipeMethods.VisitorClass)
  (explainer : option PipeMethods.ExplainerClass) (self : Kioss.Pipe)
  (n_samples n_error_samples raise_if_more_errors_than : Z)
  (text : string) (up : Iterator) :
  PipeMethods.explain explainer (safe_plan self) false = Ok text ->
  PipeMethods.__iter__ slot (logged self) = Ok up ->
  Forall is_Exception (errors up) ->
  n_error_samples <= 0 ->
  errors up <> [] ->
  raise_if_more_errors_than < Z.of_nat (List.length (errors up)) ->
  let run := PipeMethods.superintend slot explainer self n_samples
               n_error_samples raise_if_more_errors_than in
  Streamable.final_error_samples run = []
  /\ Streamable.final_errors_count run = Z.of_nat (List.length (errors up))
  /\ raises (Streamable.outcome run) IndexError.
Proof.
  intros Hex Hup Hexc Hm Herr Hr run. subst run.
  rewrite (superintend_unfold slot explainer self _ _ _ text up Hex Hup).
  pose proof (superintend_run_completes n_error_samples (Some n_samples)
                up no_locals 0%nat [] Hexc) as Hn.
  destruct (superintend_run n_error_samples (Some n_samples) up no_locals
              0%nat []) as [[exc [rest l]] out] eqn:E.
  simpl in Hn; subst exc.
  apply superintend_run_completed in E as (-> & -> & -> & _).
  unfold Streamable.after_loop.
  rewrite register_all_with_count, register_all_with_samples.
  cbn [no_locals Streamable.errors_count Streamable.error_samples
       List.length app].
  replace (Z.to_nat n_error_samples - 0)%nat with 0%nat by lia.
  rewrite Z.add_0_l. cbn [firstn].
  assert (Hpos : 0 < Z.of_nat (List.length (errors up))).
  { destruct (errors up); [congruence | simpl; lia]. }
  apply Z.ltb_lt in Hpos, Hr. rewrite Hpos, Hr.
  cbn [Streamable.outcome Streamable.final_errors_count
       Streamable.final_error_samples].
  repeat split. eexists; split; reflexivity.
Qed.

Lemma superintend_without_samples_raises_IndexError_witness :
  Streamable.final_error_samples
    (@PipeMethods.superintend passthrough_lib
       (Some PipeMethods.IteratorGeneratingVisitorClass)
       (Some silent_explainer) faulty_pipe 2 0 1) = []
  /\ Streamable.final_errors_count
       (@PipeMethods.superintend passthrough_lib
          (Some PipeMethods.IteratorGeneratingVisitorClass)
          (Some silent_explainer) faulty_pipe 2 0 1) = 2
  /\ raises (Streamable.outcome
               (@PipeMethods.superintend passthrough_lib
                  (Some PipeMethods.IteratorGeneratingVisitorClass)
                  (Some silent_explainer) faulty_pipe 2 0 1)) IndexError.
Proof.
  apply (@superintend_without_samples_raises_IndexError passthrough_lib
           (Some PipeMethods.IteratorGeneratingVisitorClass)
           (Some silent_explainer) faulty_pipe 2 0 1 EmptyString
           faulty_script eq_refl eq_refl).
  - repeat constructor.
  - lia.
  - discriminate.
  - simpl. lia.
Defined.

Lemma superintend_run_deferred_run (n : Z) : forall up l i out,
  List.length out = Nat.min i (Z.to_nat n) ->
  superintend_run Streamable._RUN_MAX_NUM_ERROR_SAMPLES (Some n) up l i out
  = deferred_run n up l out.
Proof.
  induction up as [|[x|e] up IH]; intros l i out Hlen;
    cbn [superintend_run deferred_run].
  - reflexivity.
  - assert (Hk : PipeMethods.keep (Some n) i out x = collect n out x).
    { unfold PipeMethods.keep, collect.
      destruct (Z.of_nat i <? n) eqn:E1;
        destruct (Z.of_nat (List.length out) <? n) eqn:E2; auto;
        [apply Z.ltb_lt in E1; apply Z.ltb_ge in E2
        |apply Z.ltb_ge in E1; apply Z.ltb_lt in E2]; lia. }
    rewrite Hk. apply IH. unfold collect.
    destruct (Z.of_nat (List.length out) <? n) eqn:E.
    + apply Z.ltb_lt in E. rewrite List.length_app. cbn [List.length]. lia.
    + apply Z.ltb_ge in E. lia.
  - destruct (isinstance_any e [Exception]); [|reflexivity].
    apply IH. exact Hlen.
Qed.

(** X14. [Pipe.superintend] with 8 error samples and [Stream.iterate]
    with [fail_fast=False] are the same driver: on plans that compile to
    the same producer, with [n_samples = collect_limit >= 0] and the same
    threshold [>= 0], they return or raise the same, with the same count,
    the same samples and the same error log.  Selecting by the index of
    [enumerate] and by the length of the list collected keep the same
    elements. *)
Theorem superintend_is_iterate {lib : ExecLib}
  (slot : option PipeMethods.VisitorClass)
  (explainer : option PipeMethods.ExplainerClass)
  (pipe : Kioss.Pipe) (stream : Streamable.Stream)
  (n raise_if_more_errors_than : Z) (text : string) (up : Iterator) :
  0 <= n -> 0 <= raise_if_more_errors_than ->
  PipeMethods.explain explainer (safe_plan pipe) false = Ok text ->
  PipeMethods.__iter__ slot (logged pipe) = Ok up ->
  Streamable.__iter__ stream = Ok up ->
  PipeMethods.superintend slot explainer pipe n 8 raise_if_more_errors_than
  = Streamable.iterate stream n raise_if_more_errors_than false.
Proof.
  intros Hn Hr Hex Hup Hs.
  rewrite (superintend_unfold slot explainer pipe _ _ _ text up Hex Hup).
  rewrite (iterate_deferred stream _ _ up Hn Hr Hs).
  change 8 with Streamable._RUN_MAX_NUM_ERROR_SAMPLES.
  rewrite superintend_run_deferred_run by reflexivity.
  reflexivity.
Qed.

Lemma superintend_is_iterate_witness :
  @PipeMethods.superintend passthrough_lib
    (Some PipeMethods.IteratorGeneratingVisitorClass)
    (Some silent_explainer) faulty_pipe 2 8 1
  = @Streamable.iterate passthrough_lib faulty_stream 2 1 false.
Proof.
  apply (@superintend_is_iterate passthrough_lib
           (Some PipeMethods.IteratorGeneratingVisitorClass)
           (Some silent_explainer) faulty_pipe faulty_stream 2 1
           EmptyString faulty_script);
    try lia; reflexivity.
Defined.

Lemma superintend_run_max (m n : Z) : forall up l i out,
  superintend_run m (Some n) up l i out
  = superintend_run m (Some (Z.max 0 n)) up l i out.
Proof.
  induction up as [|[x|e] up IH]; intros l i out; cbn [superintend_run].
  - reflexivity.
  - replace (PipeMethods.keep (Some (Z.max 0 n)) i out x)
      with (PipeMethods.keep (Some n) i out x); [apply IH|].
    unfold PipeMethods.keep.
    destruct (Z.of_nat i <? n) eqn:E1;
      destruct (Z.of_nat i <? Z.max 0 n) eqn:E2; auto;
      [apply Z.ltb_lt in E1; apply Z.ltb_ge in E2
      |apply Z.ltb_ge in E1; apply Z.ltb_lt in E2]; lia.
  - destruct (isinstance_any e [Exception]); [apply IH | reflexivity].
Qed.

Lemma after_loop_max (m r : Z) (l : Streamable.Locals) (out : list PyObj)
  (rest : Iterator) :
  Streamable.after_loop m r l out rest
  = Streamable.after_loop m (Z.max 0 r) l out rest.
Proof.
  unfold Streamable.after_loop.
  destruct (0 <? Streamable.errors_count l) eqn:E0; [|reflexivity].
  apply Z.ltb_lt in E0.
  replace (Z.max 0 r <? Streamable.errors_count l)
    with (r <? Streamable.errors_count l); [reflexivity|].
  destruct (r <? Streamable.errors_count l) eqn:E1;
    destruct (Z.max 0 r <? Streamable.errors_count l) eqn:E2; auto;
    [apply Z.ltb_lt in E1; apply Z.ltb_ge in E2
    |apply Z.ltb_ge in E1; apply Z.ltb_lt in E2]; lia.
Qed.

(** X15. [Pipe.superintend] validates neither [n_samples] nor
    [raise_if_more_errors_than]: a negative value of either is not
    rejected and acts as 0, on every pipe and whatever happens. *)
Theorem superintend_takes_negatives_as_zero {lib : ExecLib}
  (slot : option PipeMethods.VisitorClass)
  (explainer : option PipeMethods.ExplainerClass) (self : Kioss.Pipe)
  (n_samples n_error_samples raise_if_more_errors_than : Z) :
  PipeMethods.superintend slot explainer self n_samples n_error_samples
    raise_if_more_errors_than
  = PipeMethods.superintend slot explainer self (Z.max 0 n_samples)
      n_error_samples (Z.max 0 raise_if_more_errors_than).
Proof.
  unfold PipeMethods.superintend. cbv zeta.
  destruct (PipeMethods.explain explainer _ false) as [text|e];
    [|reflexivity].
  destruct (PipeMethods.visitor_guard slot;;; accept _) as [up|e];
    [|reflexivity].
  rewrite !superintend_loop_run. rewrite superintend_run_max.
  destruct (superintend_run n_error_samples (Some (Z.max 0 n_samples)) up _
              0%nat []) as [[[e|] [rest l]] out]; [reflexivity|].
  apply after_loop_max.
Qed.

(** X16. [Pipe.superintend] does not defer what is raised while the plan
    is compiled: if compiling the pipe fails (a source that returns no
    iterator, a factory that raises), [superintend] raises that error at
    once, whatever [raise_if_more_errors_than] is, and nothing is counted,
    sampled or logged. *)
Theorem superintend_raises_compile_errors {lib : ExecLib}
  (explainer : option PipeMethods.ExplainerClass) (self : Kioss.Pipe)
  (n_samples n_error_samples raise_if_more_errors_than : Z)
  (text : string) (e : PyExc) :
  PipeMethods.explain explainer (safe_plan self) false = Ok text ->
  accept self = Err e ->
  PipeMethods.superintend (Some PipeMethods.IteratorGeneratingVisitorClass)
    explainer self n_samples n_error_samples raise_if_more_errors_than
  = Streamable.not_run e.
Proof.
  intros Hex Hself. unfold PipeMethods.superintend. cbv zeta.
  fold (logged self). fold (safe_plan self). rewrite Hex.
  assert (Hlog : accept (logged self) = Err e).
  { unfold logged. destruct (negb (PipeMethods.is_LogPipe self)); auto.
    simpl. unfold visitLogPipe. rewrite Hself. reflexivity. }
  simpl. rewrite Hlog. reflexivity.
Qed.

Lemma superintend_raises_compile_errors_witness :
  exists e,
    @PipeMethods.superintend passthrough_lib
      (Some PipeMethods.IteratorGeneratingVisitorClass)
      (Some silent_explainer) (Kioss.SourcePipe list_source) 5 8 100
    = Streamable.not_run e
    /\ exc_class e = TypeError.
Proof.
  eexists. split.
  - apply (@superintend_raises_compile_errors passthrough_lib
             (Some silent_explainer) (Kioss.SourcePipe list_source) 5 8 100
             EmptyString _ eq_refl eq_refl).
  - reflexivity.
Defined.

(** X17. [Stream.iterate] does not defer what [iter(stream)] raises:
    with valid arguments and either value of [fail_fast], an error raised
    while the plan is compiled is raised by [iterate], and nothing is
    counted, sampled or logged. *)
Theorem iterate_raises_compile_errors {lib : ExecLib}
  (self : Streamable.Stream) (collect_limit raise_if_more_errors_than : Z)
  (fail_fast : bool) (e : PyExc) :
  0 <= collect_limit -> 0 <= raise_if_more_errors_than ->
  Streamable.__iter__ self = Err e ->
  Streamable.iterate self collect_limit raise_if_more_errors_than fail_fast
  = Streamable.not_run e.
Proof.
  intros Hc Hr Hself. unfold Streamable.iterate.
  apply Z.ltb_ge in Hc, Hr. rewrite Hc, Hr. cbv zeta.
  fold (observed self). rewrite iter_observed, Hself.
  destruct fail_fast; reflexivity.
Qed.

Lemma iterate_raises_compile_errors_witness :
  @Streamable.iterate passthrough_lib
    (Streamable.SourceStream raising_source) 3 100 false
  = Streamable.not_run bad_value.
Proof.
  apply (@iterate_raises_compile_errors passthrough_lib
           (Streamable.SourceStream raising_source) 3 100 false bad_value).
  - lia.
  - lia.
  - reflexivity.
Defined.

Lemma deferred_run_abort (limit : Z) :
  forall (pre : Iterator) (e : PyExc) (post : Iterator) l out,
  Forall is_Exception (errors pre) ->
  isinstance_exc e Exception = false ->
  exists out',
    deferred_run limit (pre ++ Err e :: post) l out
    = (Some e, (post, register_all (errors pre) l), out').
Proof.
  induction pre as [|[x|e0] pre IH]; intros e post l out Hpre He;
    cbn [app deferred_run errors].
  - unfold isinstance_any. cbn [existsb]. rewrite He. simpl. eauto.
  - apply IH; assumption.
  - simpl in Hpre. inversion Hpre as [|? ? He0 Hrest]; subst.
    unfold isinstance_any at 1. cbn [existsb]. rewrite He0. cbn [orb].
    apply IH; assumption.
Qed.

(** X18. With [fail_fast=False] the driver catches [Exception] only: an
    error that is not an instance of [Exception] (a [KeyboardInterrupt])
    ends the iteration and is raised by [iterate] at once; what follows it
    is never pulled, and the errors counted before it are neither logged
    nor raised. *)
Theorem iterate_does_not_defer_non_Exceptions {lib : ExecLib}
  (self : Streamable.Stream) (collect_limit raise_if_more_errors_than : Z)
  (pre post : Iterator) (e : PyExc) :
  0 <= collect_limit -> 0 <= raise_if_more_errors_than ->
  Streamable.__iter__ self = Ok (pre ++ Err e :: post) ->
  Forall is_Exception (errors pre) ->
  isinstance_exc e Exception = false ->
  let run := Streamable.iterate self collect_limit raise_if_more_errors_than
               false in
  Streamable.outcome run = Err e
  /\ Streamable.unpulled run = post
  /\ Streamable.final_errors_count run = Z.of_nat (List.length (errors pre))
  /\ Streamable.error_log run = None.
Proof.
  intros Hc Hr Hup Hpre He run. subst run.
  rewrite (iterate_deferred self _ _ _ Hc Hr Hup).
  destruct (deferred_run_abort collect_limit pre e post no_locals []
              Hpre He) as [out' ->].
  cbn [Streamable.aborted Streamable.outcome Streamable.unpulled
       Streamable.final_errors_count Streamable.error_log].
  rewrite register_all_count. simpl. auto.
Qed.

Lemma iterate_does_not_defer_non_Exceptions_witness :
  Streamable.outcome
    (@Streamable.iterate passthrough_lib interrupted_stream 5 100 false)
  = Err keyboard_interrupt
  /\ Streamable.unpulled
       (@Streamable.iterate passthrough_lib interrupted_stream 5 100 false)
     = [Ok (OInt 2)]
  /\ Streamable.final_errors_count
       (@Streamable.iterate passthrough_lib interrupted_stream 5 100 false)
     = 1
  /\ Streamable.error_log
       (@Streamable.iterate passthrough_lib interrupted_stream 5 100 false)
     = None.
Proof.
  apply (@iterate_does_not_defer_non_Exceptions passthrough_lib
           interrupted_stream 5 100 [Ok (OInt 1); Err zero_division]
           [Ok (OInt 2)] keyboard_interrupt).
  - lia.
  - lia.
  - reflexivity.
  - repeat constructor.
  - reflexivity.
Defined.

(** X19. On a stream that raises no error the two modes of
    [Stream.iterate] are one: [fail_fast=True] and [fail_fast=False]
    return the same list, or reject the same arguments with the same
    error. *)
Theorem iterate_modes_agree_without_errors {lib : ExecLib}
  (self : Streamable.Stream) (collect_limit raise_if_more_errors_than : Z)
  (up : Iterator) :
  Streamable.__iter__ self = Ok up ->
  errors up = [] ->
  Streamable.iterate self collect_limit raise_if_more_errors_than true
  = Streamable.iterate self collect_limit raise_if_more_errors_than false.
Proof.
  intros Hup Herr.
  destruct (Z_lt_ge_dec collect_limit 0) as [Hc|Hc].
  { unfold Streamable.iterate. apply Z.ltb_lt in Hc. rewrite Hc.
    reflexivity. }
  destruct (Z_lt_ge_dec raise_if_more_errors_than 0) as [Hr|Hr].
  { unfold Streamable.iterate. apply Z.ltb_lt in Hr. rewrite Hr.
    destruct (collect_limit <? 0); reflexivity. }
  assert (Hc' : 0 <= collect_limit) by lia.
  assert (Hr' : 0 <= raise_if_more_errors_than) by lia.
  rewrite (iterate_fail_fast self _ _ up Hc' Hr' Hup).
  rewrite (iterate_deferred self _ _ up Hc' Hr' Hup).
  rewrite fail_fast_run_no_error by assumption.
  assert (Hex : Forall is_Exception (errors up)) by (rewrite Herr; constructor).
  pose proof (deferred_run_completes collect_limit up no_locals [] Hex) as Hn.
  destruct (deferred_run collect_limit up no_locals [])
    as [[exc [rest l]] out] eqn:E.
  simpl in Hn; subst exc.
  apply deferred_run_completed in E as (-> & -> & -> & _).
  rewrite Herr. reflexivity.
Qed.

Lemma iterate_modes_agree_without_errors_witness :
  @Streamable.iterate passthrough_lib a_stream 1 0 true
  = @Streamable.iterate passthrough_lib a_stream 1 0 false.
Proof.
  apply (@iterate_modes_agree_without_errors passthrough_lib a_stream 1 0
           [Ok (OInt 1); Ok (OInt 2)]); reflexivity.
Defined.
